(** * SecurePOS: identity store, sales ledger and audit trail

    A shallow embedding of the role-gated point-of-sale audit tool:
    - [BlockchainService]  backend/src/services/blockchain.ts (the in-memory mock),
    - [SecurePOSModule]    the Lisk module with the same operations,
    - [Backend]            middleware/auth.ts and the routes sales.ts, audit.ts, admin.ts.

    JavaScript [Map<string, _>] is a [gmap string _], [Set<string>] a
    [gset string]; every method takes the object state and returns the result
    together with the new state.  [Date.now()] is an input of the operation
    that reads the clock. *)

From stdpp Require Import gmap strings pretty list sorting.
From Stdlib.Strings Require Import Byte Ascii.

Local Open Scope string_scope.

(** ** JavaScript helpers *)

(** [!x] for a value that is a string or [undefined]. *)
Definition falsy (x : option string) : bool :=
  match x with
  | None => true
  | Some s => bool_decide (s = "")
  end.

(** [!s] for a string. *)
Definition empty_str (s : string) : bool := bool_decide (s = "").

(** [a === b] on strings. *)
Definition str_eq (a b : string) : bool := bool_decide (a = b).

(** [o === r] where [o] is a string or [undefined] and [r] a string. *)
Definition opt_is (o : option string) (r : string) : bool :=
  bool_decide (o = Some r).

(** [['admin', 'auditor', 'cashier'].includes(role)] *)
Definition valid_role (role : string) : bool :=
  bool_decide (role ∈ ["admin"; "auditor"; "cashier"]).

(** [s.startsWith(p)] *)
Fixpoint startsWith (p s : string) : bool :=
  match p, s with
  | EmptyString, _ => true
  | String a p', String b s' => bool_decide (a = b) && startsWith p' s'
  | String _ _, EmptyString => false
  end.

(** ** backend/src/services/blockchain.ts *)

Module BlockchainService.

Record SalesRecord := {
  storeId : string;
  date : string;
  hash : string;
  timestamp : N;
  submittedBy : string
}.

Inductive payload :=
| DataRecord (r : SalesRecord)
| DataRecords (rs : list SalesRecord).

Record BlockchainResponse := {
  success : bool;
  message : string;
  data : option payload;
  has_role : option bool;
  role : option string
}.

(** [{ success, message }] *)
Definition reply (ok : bool) (msg : string) : BlockchainResponse :=
  {| success := ok; message := msg; data := None; has_role := None; role := None |}.

(** The two private maps of the class. *)
Record state := {
  mockUsers : gmap string string;
  mockSalesRecords : gmap string SalesRecord
}.

Definition default_admin := "lsk24cd35u4jdq8szo4pnsqe5dsxwrnazyqqqg5eu".
Definition mock_auditor := "lsk2a8h3k9j4m5n6p7q8r9s0t1u2v3w4x5y6z7a8b".
Definition mock_cashier := "lsk3b9i4k0j5m6n7p8q9r0s1t2u3v4w5x6y7z8a9c".

(** [new BlockchainService()] *)
Definition initial : state :=
  {| mockUsers :=
       <[mock_cashier := "cashier"]>
         (<[mock_auditor := "auditor"]> (<[default_admin := "admin"]> ∅));
     mockSalesRecords := ∅ |}.

(** [`${storeId}:${date}`] *)
Definition key (storeId date : string) : string := storeId +:+ ":" +:+ date.

Definition submitSalesHash (now : N) (storeId date hash senderAddress : string)
    (st : state) : BlockchainResponse * state :=
  if negb (opt_is (mockUsers st !! senderAddress) "cashier") then
    (reply false "Unauthorized: Cashier role required", st)
  else if bool_decide (is_Some (mockSalesRecords st !! key storeId date)) then
    (reply false "Sales record already exists for this date", st)
  else
    (reply true "Sales hash submitted successfully",
     {| mockUsers := mockUsers st;
        mockSalesRecords :=
          <[key storeId date :=
              {| storeId := storeId; date := date; hash := hash;
                 timestamp := now; submittedBy := senderAddress |}]>
            (mockSalesRecords st) |}).

Definition getSalesHash (storeId date : string) (st : state) : BlockchainResponse :=
  match mockSalesRecords st !! key storeId date with
  | None => reply false "No sales record found"
  | Some record =>
      {| success := true; message := "Record found";
         data := Some (DataRecord record); has_role := None; role := None |}
  end.

Definition addUser (userAddress role senderAddress : string)
    (st : state) : BlockchainResponse * state :=
  if negb (opt_is (mockUsers st !! senderAddress) "admin") then
    (reply false "Unauthorized: Admin role required", st)
  else
    (reply true ("User added to " +:+ role +:+ " role successfully"),
     {| mockUsers := <[userAddress := role]> (mockUsers st);
        mockSalesRecords := mockSalesRecords st |}).

Definition removeUser (userAddress senderAddress : string)
    (st : state) : BlockchainResponse * state :=
  if negb (opt_is (mockUsers st !! senderAddress) "admin") then
    (reply false "Unauthorized: Admin role required", st)
  else if bool_decide (is_Some (mockUsers st !! userAddress)) then
    (reply true "User removed successfully",
     {| mockUsers := delete userAddress (mockUsers st);
        mockSalesRecords := mockSalesRecords st |})
  else
    (reply false "User not found", st).

Definition hasRole (userAddress role : string) (st : state) : BlockchainResponse :=
  let userRole := mockUsers st !! userAddress in
  {| success := true;
     has_role := Some (opt_is userRole role);
     role := userRole;
     message := "Role check completed";
     data := None |}.

(** [Array.from(this.mockSalesRecords.values())]; the list is in the map's
    own order here, the insertion order of the JavaScript [Map] is not kept. *)
Definition getAllSalesRecords (senderAddress : string) (st : state) : BlockchainResponse :=
  if negb (opt_is (mockUsers st !! senderAddress) "admin") then
    reply false "Unauthorized: Admin role required"
  else
    {| success := true; message := "Records retrieved";
       data := Some (DataRecords (map_to_list (mockSalesRecords st)).*2);
       has_role := None; role := None |}.

(** [new Map(this.mockUsers)] *)
Definition getAllUsers (st : state) : gmap string string := mockUsers st.

End BlockchainService.

(** ** The Lisk module (class [SecurePOSModule]) *)

Module SecurePOSModule.

Record SalesRecord := {
  storeId : string;
  date : string;
  hash : string;
  timestamp : N;
  submittedBy : string
}.

Record UserRole := {
  address : string;
  role : string;
  addedBy : string;
  granted : N   (* the [timestamp] field of [UserRole] *)
}.

(** [{ success, message }], with [data] for [getSalesHash]. *)
Record Response := {
  success : bool;
  message : string;
  data : option SalesRecord
}.

Definition reply (ok : bool) (msg : string) : Response :=
  {| success := ok; message := msg; data := None |}.

(** The result of the [hasRole] endpoint. *)
Record RoleResponse := {
  rr_success : bool;
  rr_hasRole : bool;
  rr_role : option string
}.

(** The three private fields of the class. *)
Record state := {
  salesRecords : gmap string SalesRecord;
  userRoles : gmap string UserRole;
  adminAddresses : gset string
}.

(** A freshly constructed module. *)
Definition created : state :=
  {| salesRecords := ∅; userRoles := ∅; adminAddresses := ∅ |}.

(** [init(args)], with [deployerAddress = args.genesisConfig.accounts[0]?.address]. *)
Definition init (now : N) (deployerAddress : option string) (st : state) : state :=
  match deployerAddress with
  | Some d =>
      if empty_str d then st
      else
        {| salesRecords := salesRecords st;
           userRoles :=
             <[d := {| address := d; role := "admin"; addedBy := d; granted := now |}]>
               (userRoles st);
           adminAddresses := {[d]} ∪ adminAddresses st |}
  | None => st
  end.

(** [userRole?.role === role] *)
Definition hasRoleInternal (addr r : string) (st : state) : bool :=
  opt_is (role <$> userRoles st !! addr) r.

Definition key (storeId date : string) : string := storeId +:+ ":" +:+ date.

Definition submitSalesHash (now : N) (storeId date hash senderAddress : string)
    (st : state) : Response * state :=
  if negb (hasRoleInternal senderAddress "cashier" st) then
    (reply false "Unauthorized: Cashier role required", st)
  else if empty_str storeId || empty_str date || empty_str hash then
    (reply false "Missing required parameters", st)
  else if bool_decide (is_Some (salesRecords st !! key storeId date)) then
    (reply false "Sales record for this store and date already exists", st)
  else
    (reply true "Sales hash submitted successfully",
     {| salesRecords :=
          <[key storeId date :=
              {| storeId := storeId; date := date; hash := hash;
                 timestamp := now; submittedBy := senderAddress |}]>
            (salesRecords st);
        userRoles := userRoles st;
        adminAddresses := adminAddresses st |}).

Definition getSalesHash (storeId date : string) (st : state) : Response :=
  if empty_str storeId || empty_str date then
    reply false "Missing required parameters"
  else
    match salesRecords st !! key storeId date with
    | None => reply false "No sales record found for the specified store and date"
    | Some record =>
        {| success := true; data := Some record;
           message := "Sales record retrieved successfully" |}
    end.

Definition addUser (now : N) (userAddress role senderAddress : string)
    (st : state) : Response * state :=
  if negb (hasRoleInternal senderAddress "admin" st) then
    (reply false "Unauthorized: Admin role required", st)
  else if negb (valid_role role) then
    (reply false "Invalid role specified", st)
  else
    let userRole :=
      {| address := userAddress; role := role;
         addedBy := senderAddress; granted := now |} in
    (reply true ("User added to " +:+ role +:+ " role successfully"),
     {| salesRecords := salesRecords st;
        userRoles := <[userAddress := userRole]> (userRoles st);
        adminAddresses :=
          if str_eq role "admin" then {[userAddress]} ∪ adminAddresses st
          else adminAddresses st |}).

Definition removeUser (userAddress senderAddress : string)
    (st : state) : Response * state :=
  if negb (hasRoleInternal senderAddress "admin" st) then
    (reply false "Unauthorized: Admin role required", st)
  else if str_eq userAddress senderAddress
          && bool_decide (size (adminAddresses st) = 1) then
    (reply false "Cannot remove the last admin", st)
  else
    match userRoles st !! userAddress with
    | Some userRole =>
        (reply true "User removed successfully",
         {| salesRecords := salesRecords st;
            userRoles := delete userAddress (userRoles st);
            adminAddresses :=
              if str_eq (role userRole) "admin"
              then adminAddresses st ∖ {[userAddress]}
              else adminAddresses st |})
    | None => (reply false "User not found", st)
    end.

Definition hasRole (userAddress r : string) (st : state) : RoleResponse :=
  {| rr_success := true;
     rr_hasRole := hasRoleInternal userAddress r st;
     rr_role := role <$> userRoles st !! userAddress |}.

(** The records come in the map's own order, not in insertion order. *)
Definition getAllSalesRecords (senderAddress : string) (st : state)
    : Response * option (list SalesRecord) :=
  if negb (hasRoleInternal senderAddress "admin" st) then
    (reply false "Unauthorized: Admin role required", None)
  else
    (reply true "Sales records retrieved successfully",
     Some (map_to_list (salesRecords st)).*2).

End SecurePOSModule.

(** ** [crypto.createHash('sha256').update(buffer).digest('hex')]

    Node's built-in digest, as FIPS 180-4 defines it: 32-bit words are [N]
    with the additions reduced modulo 2^32. *)

Module Sha256.
Local Open Scope N_scope.

Definition mask32 : N := 0xFFFFFFFF.
Definition add32 (x y : N) : N := (x + y) mod 0x100000000.
Definition rotr (n x : N) : N :=
  N.lor (N.shiftr x n) (N.land (N.shiftl x (32 - n)) mask32).
Definition Ch (x y z : N) : N :=
  N.lxor (N.land x y) (N.land (N.lxor x mask32) z).
Definition Maj (x y z : N) : N :=
  N.lxor (N.lxor (N.land x y) (N.land x z)) (N.land y z).
Definition Sigma0 (x : N) : N := N.lxor (N.lxor (rotr 2 x) (rotr 13 x)) (rotr 22 x).
Definition Sigma1 (x : N) : N := N.lxor (N.lxor (rotr 6 x) (rotr 11 x)) (rotr 25 x).
Definition sigma0 (x : N) : N := N.lxor (N.lxor (rotr 7 x) (rotr 18 x)) (N.shiftr x 3).
Definition sigma1 (x : N) : N := N.lxor (N.lxor (rotr 17 x) (rotr 19 x)) (N.shiftr x 10).

(** The round constants: the first 32 bits of the fractional parts of the
    cube roots of the first 64 primes, in decimal. *)
Definition K : list N :=
  [
   1116352408; 1899447441; 3049323471; 3921009573;
    961987163; 1508970993; 2453635748; 2870763221;
   3624381080;  310598401;  607225278; 1426881987;
   1925078388; 2162078206; 2614888103; 3248222580;
   3835390401; 4022224774;  264347078;  604807628;
    770255983; 1249150122; 1555081692; 1996064986;
   2554220882; 2821834349; 2952996808; 3210313671;
   3336571891; 3584528711;  113926993;  338241895;
    666307205;  773529912; 1294757372; 1396182291;
   1695183700; 1986661051; 2177026350; 2456956037;
   2730485921; 2820302411; 3259730800; 3345764771;
   3516065817; 3600352804; 4094571909;  275423344;
    430227734;  506948616;  659060556;  883997877;
    958139571; 1322822218; 1537002063; 1747873779;
   1955562222; 2024104815; 2227730452; 2361852424;
   2428436474; 2756734187; 3204031479; 3329325298
  ].

(** The eight working variables, also the chaining value. *)
Record regs := Regs { ra : N; rb : N; rc : N; rd : N; re : N; rf : N; rg : N; rh : N }.

Definition H0 : regs :=
  Regs 1779033703 3144134277 1013904242 2773480762
       1359893119 2600822924 528734635 1541459225.

(** Padding: the bit 1, zeros up to 56 modulo 64, the bit length on 64 bits. *)
Definition be_bytes (n : nat) (x : N) : list N :=
  (λ i : nat, N.land (N.shiftr x (8 * N.of_nat (n - 1 - i))) 0xFF) <$> seq 0 n.

Definition pad (msg : list N) : list N :=
  let len := length msg in
  msg ++ [0x80] ++ replicate ((119 - len mod 64) mod 64)%nat 0
      ++ be_bytes 8 (8 * N.of_nat len).

Definition be_word (bs : list N) : N :=
  foldl (λ acc b, N.lor (N.shiftl acc 8) b) 0 bs.

(** [n] chunks of [k] elements. *)
Fixpoint chunks {A} (k n : nat) (l : list A) : list (list A) :=
  match n with
  | O => []
  | S n' => take k l :: chunks k n' (drop k l)
  end.

Definition words (bs : list N) : list N :=
  be_word <$> chunks 4 (length bs / 4) bs.

(** Message schedule: 16 words extended to 64. *)
Definition extend (w : list N) (t : nat) : list N :=
  let at_ i := w !!! (t - i)%nat in
  w ++ [add32 (add32 (sigma1 (at_ 2%nat)) (at_ 7%nat))
              (add32 (sigma0 (at_ 15%nat)) (at_ 16%nat))].

Definition schedule (block : list N) : list N :=
  foldl extend block (seq 16 48).

Definition round (r : regs) (kw : N * N) : regs :=
  let t1 := add32 (add32 (add32 (rh r) (Sigma1 (re r)))
                         (add32 (Ch (re r) (rf r) (rg r)) kw.1)) kw.2 in
  let t2 := add32 (Sigma0 (ra r)) (Maj (ra r) (rb r) (rc r)) in
  Regs (add32 t1 t2) (ra r) (rb r) (rc r) (add32 (rd r) t1) (re r) (rf r) (rg r).

Definition compress (hv : regs) (block : list N) : regs :=
  let r := foldl round hv (zip K (schedule block)) in
  Regs (add32 (ra hv) (ra r)) (add32 (rb hv) (rb r)) (add32 (rc hv) (rc r))
       (add32 (rd hv) (rd r)) (add32 (re hv) (re r)) (add32 (rf hv) (rf r))
       (add32 (rg hv) (rg r)) (add32 (rh hv) (rh r)).

Definition hash_words (msg : list N) : regs :=
  let ws := words (pad msg) in
  foldl compress H0 (chunks 16 (length ws / 16) ws).

(** [.digest('hex')]: lower-case hexadecimal, eight digits per word. *)
Definition hex_digit (x : N) : ascii :=
  default "0"%char (String.list_ascii_of_string "0123456789abcdef" !! N.to_nat x).

Definition hex32 (x : N) : string :=
  String.string_of_list_ascii
    ((λ i : nat, hex_digit (N.land (N.shiftr x (4 * N.of_nat (7 - i))) 0xF)) <$> seq 0 8).

Definition hex (r : regs) : string :=
  hex32 (ra r) +:+ hex32 (rb r) +:+ hex32 (rc r) +:+ hex32 (rd r) +:+
  hex32 (re r) +:+ hex32 (rf r) +:+ hex32 (rg r) +:+ hex32 (rh r).

Definition sha256_hex (buffer : list byte) : string :=
  hex (hash_words (Byte.to_N <$> buffer)).
End Sha256.

Arguments Sha256.sha256_hex : simpl never.

(** ** The Express backend: middleware/auth.ts and the routes *)

Module Backend.

(** [req.file] as multer leaves it: [path] and [filename] with the disk
    storage of sales.ts, [buffer] with the memory storage of audit.ts. *)
Record UploadedFile := {
  originalname : string;
  filename : string;
  path : string;
  fsize : N;   (* req.file.size *)
  buffer : list byte
}.

(** The fields of [req.body] the handlers read; an absent field is
    [undefined]. *)
Record Body := {
  b_storeId : option string;
  b_date : option string;
  b_userAddress : option string;
  b_role : option string
}.

Record Request := {
  wallet : option string;   (* req.headers['x-wallet-address'] *)
  body : Body;
  file : option UploadedFile
}.

(** [AuthenticatedRequest]: the two fields are optional in the interface;
    every router is mounted behind [authMiddleware], which sets both before
    it calls [next()], so a handler always finds them. *)
Record AuthenticatedRequest := {
  req : Request;
  userAddress : string;
  userRole : string
}.

(** storage/metadata/<storeId>_<date>.json *)
Record Metadata := {
  md_storeId : string;
  md_date : string;
  md_hash : string;
  md_filename : string;
  md_originalName : string;
  md_size : N;
  md_submittedBy : string;
  md_timestamp : N
}.

(** storage/audit-logs/audit_<storeId>_<date>_<now>.json *)
Record AuditLog := {
  auditedBy : string;
  al_storeId : string;
  al_date : string;
  uploadedHash : string;
  storedHash : string;
  hashMatch : bool;
  al_filename : string;
  fileSize : N;
  al_timestamp : N;
  originalSubmission : BlockchainService.SalesRecord
}.

(** storage/admin-logs/admin_<now>.json; [remove_user] entries have no role. *)
Record AdminLog := {
  action : string;
  adminAddress : string;
  targetAddress : string;
  log_role : option string;
  log_timestamp : N
}.

(** The [data] object of a successful /verify response. *)
Record VerifyData := {
  vd_storeId : string;
  vd_date : string;
  vd_hashMatch : bool;
  vd_uploadedHash : string;
  vd_storedHash : string;
  vd_submittedBy : string;      (* originalSubmission.submittedBy *)
  vd_submittedAt : N;           (* originalSubmission.timestamp *)
  vd_auditedBy : string;        (* auditDetails.auditedBy *)
  vd_auditTimestamp : N         (* auditDetails.auditTimestamp *)
}.

Inductive Json :=
| Failure (message : string)                             (* { success: false, message } *)
| Result (result : BlockchainService.BlockchainResponse) (* the service's answer as it is *)
| SubmitOk (storeId date hash filename : string) (size : N)
| VerifyOk (message : string) (d : VerifyData).

Record HttpResponse := { status : N; json : Json }.

Definition json_success (j : Json) : bool :=
  match j with
  | Failure _ => false
  | Result r => BlockchainService.success r
  | SubmitOk _ _ _ _ _ => true
  | VerifyOk _ _ => true
  end.

Definition json_message (j : Json) : string :=
  match j with
  | Failure m => m
  | Result r => BlockchainService.message r
  | SubmitOk _ _ _ _ _ => "Sales file submitted successfully"
  | VerifyOk m _ => m
  end.

(** The service singleton and the storage tree, one map from path to
    content for each directory the handlers write. *)
Record World := {
  chain : BlockchainService.state;
  sales_files : gmap string (list byte);
  metadata : gmap string Metadata;
  audit_logs : gmap string AuditLog;
  admin_logs : gmap string AdminLog
}.

Definition set_chain (c : BlockchainService.state) (w : World) : World :=
  {| chain := c; sales_files := sales_files w; metadata := metadata w;
     audit_logs := audit_logs w; admin_logs := admin_logs w |}.

(** [!addr.startsWith('lsk') || addr.length !== 41] *)
Definition bad_address (addr : string) : bool :=
  negb (startsWith "lsk" addr) || negb (bool_decide (String.length addr = 41%nat)).

(** [check.success && check.hasRole] *)
Definition granted (check : BlockchainService.BlockchainResponse) : bool :=
  BlockchainService.success check
  && bool_decide (BlockchainService.has_role check = Some true).

Definition authMiddleware (st : BlockchainService.state) (r : Request)
    : HttpResponse + AuthenticatedRequest :=
  match wallet r with
  | None => inl {| status := 401; json := Failure "Wallet address required" |}
  | Some walletAddress =>
      if empty_str walletAddress then
        inl {| status := 401; json := Failure "Wallet address required" |}
      else if bad_address walletAddress then
        inl {| status := 401; json := Failure "Invalid wallet address format" |}
      else if granted (BlockchainService.hasRole walletAddress "admin" st) then
        inr {| req := r; userAddress := walletAddress; userRole := "admin" |}
      else if granted (BlockchainService.hasRole walletAddress "auditor" st) then
        inr {| req := r; userAddress := walletAddress; userRole := "auditor" |}
      else if granted (BlockchainService.hasRole walletAddress "cashier" st) then
        inr {| req := r; userAddress := walletAddress; userRole := "cashier" |}
      else
        inl {| status := 403; json := Failure "Unauthorized: No valid role assigned" |}
  end.

Definition requireRole (requiredRole : string) (r : AuthenticatedRequest)
    : HttpResponse + AuthenticatedRequest :=
  if negb (str_eq (userRole r) requiredRole) then
    inl {| status := 403;
           json := Failure ("Unauthorized: " +:+ requiredRole +:+ " role required") |}
  else inr r.

(** The two middlewares in front of every handler:
    [app.use(prefix, authMiddleware, router)] and
    [router.METHOD(path, requireRole(role), handler)]. *)
Definition gate (requiredRole : string) (st : BlockchainService.state) (r : Request)
    : HttpResponse + AuthenticatedRequest :=
  match authMiddleware st r with
  | inl denied => inl denied
  | inr r1 => requireRole requiredRole r1
  end.

Definition route (requiredRole : string)
    (handler : AuthenticatedRequest → World → HttpResponse * World)
    (r : Request) (w : World) : HttpResponse * World :=
  match gate requiredRole (chain w) r with
  | inl denied => (denied, w)
  | inr r2 => handler r2 w
  end.

Section Handlers.

(** [process.env.STORAGE_PATH] and Node's [path.join]. *)
Variable STORAGE_PATH : option string.
Variable path_join : list string → string.

(** [process.env.STORAGE_PATH || './storage'] *)
Definition storage_base : string :=
  if falsy STORAGE_PATH then "./storage" else default "" STORAGE_PATH.

Definition metadataPath (storeId date : string) : string :=
  path_join [storage_base; "metadata"; storeId +:+ "_" +:+ date +:+ ".json"].

Definition auditLogPath (storeId date : string) (now : N) : string :=
  path_join [storage_base; "audit-logs";
             "audit_" +:+ storeId +:+ "_" +:+ date +:+ "_" +:+ pretty now +:+ ".json"].

Definition adminLogPath (now : N) : string :=
  path_join [storage_base; "admin-logs"; "admin_" +:+ pretty now +:+ ".json"].

(** POST /submit-sales.  [t_chain] is the clock read inside
    [submitSalesHash], [t_meta] the one of the metadata record. *)
Definition submit_sales (t_chain t_meta : N) (r : AuthenticatedRequest) (w : World)
    : HttpResponse * World :=
  match file (req r) with
  | None => ({| status := 400; json := Failure "No file uploaded" |}, w)
  | Some f =>
      match b_storeId (body (req r)), b_date (body (req r)) with
      | Some storeId, Some date =>
          if empty_str storeId || empty_str date then
            ({| status := 400; json := Failure "Store ID and date are required" |}, w)
          else
            match sales_files w !! path f with
            | None =>
                (* fs.readFile throws, the catch block answers *)
                ({| status := 500; json := Failure "Failed to submit sales file" |}, w)
            | Some fileBuffer =>
                let hash := Sha256.sha256_hex fileBuffer in
                let '(blockchainResult, c) :=
                  BlockchainService.submitSalesHash
                    t_chain storeId date hash (userAddress r) (chain w) in
                if negb (BlockchainService.success blockchainResult) then
                  ({| status := 400; json := Result blockchainResult |},
                   {| chain := c;
                      sales_files := delete (path f) (sales_files w);
                      metadata := metadata w;
                      audit_logs := audit_logs w;
                      admin_logs := admin_logs w |})
                else
                  let md :=
                    {| md_storeId := storeId; md_date := date; md_hash := hash;
                       md_filename := filename f; md_originalName := originalname f;
                       md_size := fsize f; md_submittedBy := userAddress r;
                       md_timestamp := t_meta |} in
                  ({| status := 200;
                      json := SubmitOk storeId date hash (filename f) (fsize f) |},
                   {| chain := c;
                      sales_files := sales_files w;
                      metadata := <[metadataPath storeId date := md]> (metadata w);
                      audit_logs := audit_logs w;
                      admin_logs := admin_logs w |})
            end
      | _, _ =>
          ({| status := 400; json := Failure "Store ID and date are required" |}, w)
      end
  end.

(** POST /verify.  [t_log] is the clock read for the log's timestamp,
    [t_path] the one in the file name. *)
Definition verify (t_log t_path : N) (r : AuthenticatedRequest) (w : World)
    : HttpResponse * World :=
  match file (req r) with
  | None =>
      ({| status := 400; json := Failure "No file uploaded for verification" |}, w)
  | Some f =>
      match b_storeId (body (req r)), b_date (body (req r)) with
      | Some storeId, Some date =>
          if empty_str storeId || empty_str date then
            ({| status := 400; json := Failure "Store ID and date are required" |}, w)
          else
            let uploaded := Sha256.sha256_hex (buffer f) in
            let blockchainResult :=
              BlockchainService.getSalesHash storeId date (chain w) in
            if negb (BlockchainService.success blockchainResult) then
              ({| status := 404;
                  json := Failure "No sales record found for the specified store and date" |},
               w)
            else
              match BlockchainService.data blockchainResult with
              | Some (BlockchainService.DataRecord storedRecord) =>
                  let matched :=
                    str_eq uploaded (BlockchainService.hash storedRecord) in
                  let auditLog :=
                    {| auditedBy := userAddress r;
                       al_storeId := storeId; al_date := date;
                       uploadedHash := uploaded;
                       storedHash := BlockchainService.hash storedRecord;
                       hashMatch := matched;
                       al_filename := originalname f;
                       fileSize := fsize f;
                       al_timestamp := t_log;
                       originalSubmission := storedRecord |} in
                  ({| status := 200;
                      json :=
                        VerifyOk
                          (if matched then "File verification successful"
                           else "File verification failed")
                          {| vd_storeId := storeId; vd_date := date;
                             vd_hashMatch := matched;
                             vd_uploadedHash := uploaded;
                             vd_storedHash := BlockchainService.hash storedRecord;
                             vd_submittedBy := BlockchainService.submittedBy storedRecord;
                             vd_submittedAt := BlockchainService.timestamp storedRecord;
                             vd_auditedBy := userAddress r;
                             vd_auditTimestamp := t_log |} |},
                   {| chain := chain w;
                      sales_files := sales_files w;
                      metadata := metadata w;
                      audit_logs :=
                        <[auditLogPath storeId date t_path := auditLog]> (audit_logs w);
                      admin_logs := admin_logs w |})
              | _ =>
                  (* storedRecord.hash on a missing record throws; [getSalesHash]
                     sends the record with every success *)
                  ({| status := 500; json := Failure "Failed to verify file" |}, w)
              end
      | _, _ =>
          ({| status := 400; json := Failure "Store ID and date are required" |}, w)
      end
  end.

(** POST /add-user *)
Definition add_user (t_log t_path : N) (r : AuthenticatedRequest) (w : World)
    : HttpResponse * World :=
  match b_userAddress (body (req r)), b_role (body (req r)) with
  | Some target, Some role =>
      if empty_str target || empty_str role then
        ({| status := 400; json := Failure "User address and role are required" |}, w)
      else if negb (valid_role role) then
        ({| status := 400;
            json := Failure "Invalid role. Must be admin, auditor, or cashier" |}, w)
      else if bad_address target then
        ({| status := 400; json := Failure "Invalid Lisk address format" |}, w)
      else
        let '(result, c) :=
          BlockchainService.addUser target role (userAddress r) (chain w) in
        if BlockchainService.success result then
          let adminLog :=
            {| action := "add_user"; adminAddress := userAddress r;
               targetAddress := target; log_role := Some role;
               log_timestamp := t_log |} in
          ({| status := 200; json := Result result |},
           {| chain := c;
              sales_files := sales_files w;
              metadata := metadata w;
              audit_logs := audit_logs w;
              admin_logs := <[adminLogPath t_path := adminLog]> (admin_logs w) |})
        else
          ({| status := 200; json := Result result |}, set_chain c w)
  | _, _ =>
      ({| status := 400; json := Failure "User address and role are required" |}, w)
  end.

(** DELETE /remove-user *)
Definition remove_user (t_log t_path : N) (r : AuthenticatedRequest) (w : World)
    : HttpResponse * World :=
  match b_userAddress (body (req r)) with
  | Some target =>
      if empty_str target then
        ({| status := 400; json := Failure "User address is required" |}, w)
      else
        let '(result, c) :=
          BlockchainService.removeUser target (userAddress r) (chain w) in
        if BlockchainService.success result then
          let adminLog :=
            {| action := "remove_user"; adminAddress := userAddress r;
               targetAddress := target; log_role := None;
               log_timestamp := t_log |} in
          ({| status := 200; json := Result result |},
           {| chain := c;
              sales_files := sales_files w;
              metadata := metadata w;
              audit_logs := audit_logs w;
              admin_logs := <[adminLogPath t_path := adminLog]> (admin_logs w) |})
        else
          ({| status := 200; json := Result result |}, set_chain c w)
  | None =>
      ({| status := 400; json := Failure "User address is required" |}, w)
  end.

End Handlers.

End Backend.

(** ** Histories of calls *)

Module ServiceTrace.
Import BlockchainService.

(** One call of a state-changing method of the service. *)
Inductive call :=
| SubmitSalesHash (now : N) (storeId date hash senderAddress : string)
| AddUser (userAddress role senderAddress : string)
| RemoveUser (userAddress senderAddress : string).

Definition exec (c : call) (st : state) : BlockchainResponse * state :=
  match c with
  | SubmitSalesHash now s d h a => submitSalesHash now s d h a st
  | AddUser u r a => addUser u r a st
  | RemoveUser u a => removeUser u a st
  end.

Definition run (cs : list call) (st : state) : state :=
  foldl (λ st c, (exec c st).2) st cs.
End ServiceTrace.

Module ModuleTrace.
Import SecurePOSModule.

(** One call of a state-changing endpoint of the module. *)
Inductive call :=
| SubmitSalesHash (now : N) (storeId date hash senderAddress : string)
| AddUser (now : N) (userAddress role senderAddress : string)
| RemoveUser (userAddress senderAddress : string).

Definition exec (c : call) (st : state) : Response * state :=
  match c with
  | SubmitSalesHash now s d h a => submitSalesHash now s d h a st
  | AddUser now u r a => addUser now u r a st
  | RemoveUser u a => removeUser u a st
  end.

Definition run (cs : list call) (st : state) : state :=
  foldl (λ st c, (exec c st).2) st cs.

(** The addresses whose current role is admin. *)
Definition admins (st : state) : gset string :=
  dom (filter (λ kv : string * UserRole, role kv.2 = "admin") (userRoles st)).

(** [adminAddresses] mirrors the roles. *)
Definition consistent (st : state) : Prop := adminAddresses st = admins st.
End ModuleTrace.

(** The same for the mock service. *)
Definition service_admins (st : BlockchainService.state) : gset string :=
  dom (filter (λ kv : string * string, kv.2 = "admin") (BlockchainService.mockUsers st)).

(** ** Scenarios *)

(** The deployer of the scenarios below and a second address. *)
Definition deployer : string := BlockchainService.default_admin.
Definition second : string := BlockchainService.mock_auditor.

(** The module after [init], a grant of admin to [second] and a grant of
    cashier to the same address. *)
Definition demoted : SecurePOSModule.state :=
  ModuleTrace.run
    [ModuleTrace.AddUser 1 second "admin" deployer;
     ModuleTrace.AddUser 2 second "cashier" deployer]
    (SecurePOSModule.init 0 (Some deployer) SecurePOSModule.created).

(** DELETE /api/admin/remove-user sent by [a] for the address [target]. *)
Definition remove_request (a target : string) : Backend.Request :=
  {| Backend.wallet := Some a;
     Backend.body := {| Backend.b_storeId := None; Backend.b_date := None;
                        Backend.b_userAddress := Some target;
                        Backend.b_role := None |};
     Backend.file := None |}.

(** The backend when the server starts. *)
Definition started : Backend.World :=
  {| Backend.chain := BlockchainService.initial;
     Backend.sales_files := ∅; Backend.metadata := ∅;
     Backend.audit_logs := ∅; Backend.admin_logs := ∅ |}.



(** An upload as multer's disk storage leaves it, and the backend with that
    file on disk. *)
Definition upload : Backend.UploadedFile :=
  {| Backend.originalname := "sales.csv";
     Backend.filename := "1700000000000_sales.csv";
     Backend.path := "storage/sales/1700000000000_sales.csv";
     Backend.fsize := 3;
     Backend.buffer := String.list_byte_of_string "abc" |}.

Definition uploaded : Backend.World :=
  {| Backend.chain := BlockchainService.initial;
     Backend.sales_files := {[ Backend.path upload := Backend.buffer upload ]};
     Backend.metadata := ∅; Backend.audit_logs := ∅; Backend.admin_logs := ∅ |}.

(** POST /submit-sales or POST /verify sent by [a] with the file [upload]. *)
Definition sales_request (a storeId date : string) : Backend.Request :=
  {| Backend.wallet := Some a;
     Backend.body := {| Backend.b_storeId := Some storeId;
                        Backend.b_date := Some date;
                        Backend.b_userAddress := None; Backend.b_role := None |};
     Backend.file := Some upload |}.

(** POST /add-user sent by [a]. *)
Definition grant_request (a target role : string) : Backend.Request :=
  {| Backend.wallet := Some a;
     Backend.body := {| Backend.b_storeId := None; Backend.b_date := None;
                        Backend.b_userAddress := Some target;
                        Backend.b_role := Some role |};
     Backend.file := None |}.

(** A well-formed address that holds no role. *)
Definition stranger : string := "lsk9z8y7x6w5v4u3t2s1r0q9p8o7n6m5l4k3j2i1h".

(** [path.join] on plain segments. *)
Definition plain_join (segments : list string) : string := String.concat "/" segments.

(** The names the answers go by: 401 is Unauthenticated, 403 is Forbidden. *)
Inductive AuthError := Unauthenticated | Forbidden.

Definition auth_error (r : Backend.HttpResponse) : option AuthError :=
  if bool_decide (Backend.status r = 401%N) then Some Unauthenticated
  else if bool_decide (Backend.status r = 403%N) then Some Forbidden
  else None.

(** The backend after the mock cashier submitted [upload] for store "S1" and
    the first day of 2024, and the record the ledger then holds. *)
Definition recorded : Backend.World :=
  (Backend.route "cashier" (Backend.submit_sales None plain_join 10 11)
     (sales_request BlockchainService.mock_cashier "S1" "2024-01-01") uploaded).2.

Definition first_record : BlockchainService.SalesRecord :=
  {| BlockchainService.storeId := "S1"; BlockchainService.date := "2024-01-01";
     BlockchainService.hash := Sha256.sha256_hex (Backend.buffer upload);
     BlockchainService.timestamp := 10;
     BlockchainService.submittedBy := BlockchainService.mock_cashier |}.

(** ** Further notions for the properties of the code *)

(** A store id or date without the separator of the key. *)
Definition no_colon (s : string) : Prop :=
  Forall (λ c, c ≠ ":"%char) (String.list_ascii_of_string s).

(** The module's books are in order: every admin is in [adminAddresses], and
    every entry of [userRoles] is filed under its own address with a role of
    the closed set. *)
Definition well_kept (st : SecurePOSModule.state) : Prop :=
  ModuleTrace.admins st ⊆ SecurePOSModule.adminAddresses st
  ∧ ∀ a u, SecurePOSModule.userRoles st !! a = Some u →
           SecurePOSModule.address u = a ∧ valid_role (SecurePOSModule.role u) = true.

(** No grant of the history gives a role other than admin to an address that
    is admin when the grant arrives. *)
Fixpoint no_demotion (cs : list ModuleTrace.call) (st : SecurePOSModule.state) : Prop :=
  match cs with
  | [] => True
  | c :: rest =>
      match c with
      | ModuleTrace.AddUser _ u r _ => r = "admin" ∨ u ∉ ModuleTrace.admins st
      | _ => True
      end
      ∧ no_demotion rest (ModuleTrace.exec c st).2
  end.

(** ** The reading routes and the upload names *)

(** [s.endsWith(suffix)] *)
Definition endsWith (suffix s : string) : bool :=
  let n := String.length s in
  let m := String.length suffix in
  bool_decide (m ≤ n)%nat && bool_decide (String.substring (n - m) m s = suffix).

Module Views.
Import Backend.

(** [list.sort((a, b) => b.timestamp - a.timestamp)] *)
Definition newer {A} (stamp : A → N) (x y : A) : Prop := (stamp y ≤ stamp x)%N.

Definition newest_first {A} (stamp : A → N) (l : list A) : list A :=
  @merge_sort A (newer stamp) (λ x y, decide (stamp y ≤ stamp x)%N) l.

(** GET /admin/users: the [data] of the answer, in the map's own order. *)
Definition users (w : World) : list (string * string) :=
  map_to_list (BlockchainService.getAllUsers (chain w)).

(** GET /admin/stats: the [users] object and [salesRecords.total] of the
    answer; [thisMonth] and [systemHealth], which read the clock and the
    process, are left out. *)
Record UserStats := { total : nat; admins : nat; auditors : nat; cashiers : nat }.

(** [userStats[`${role}s`]++] for the four fields of the object. *)
Definition count_user (stats : UserStats) (role : string) : UserStats :=
  let field := role +:+ "s" in
  if str_eq field "admins" then
    {| total := total stats; admins := S (admins stats);
       auditors := auditors stats; cashiers := cashiers stats |}
  else if str_eq field "auditors" then
    {| total := total stats; admins := admins stats;
       auditors := S (auditors stats); cashiers := cashiers stats |}
  else if str_eq field "cashiers" then
    {| total := total stats; admins := admins stats;
       auditors := auditors stats; cashiers := S (cashiers stats) |}
  else if str_eq field "total" then
    {| total := S (total stats); admins := admins stats;
       auditors := auditors stats; cashiers := cashiers stats |}
  else stats.

Definition stats (r : AuthenticatedRequest) (w : World) : UserStats * nat :=
  let all := BlockchainService.getAllUsers (chain w) in
  let userStats :=
    foldl count_user
      {| total := size all; admins := 0; auditors := 0; cashiers := 0 |}
      (map_to_list all).*2 in
  let blockchainResult := BlockchainService.getAllSalesRecords (userAddress r) (chain w) in
  let salesRecords :=
    if BlockchainService.success blockchainResult then
      match BlockchainService.data blockchainResult with
      | Some (BlockchainService.DataRecords rs) => rs
      | _ => []
      end
    else [] in
  (userStats, length salesRecords).

End Views.

(** The [filename] of multer's disk storage in sales.ts:
    [file.originalname.replace(/[^a-zA-Z0-9.-]/g, '_')] behind the clock.  A
    name is its sequence of code units, one [ascii] each; the global
    replacement goes unit by unit, so each unit outside the class becomes one
    underscore. *)
Definition safe_char (c : ascii) : bool :=
  let n := nat_of_ascii c in
  bool_decide (48 ≤ n ≤ 57)%nat || bool_decide (65 ≤ n ≤ 90)%nat
  || bool_decide (97 ≤ n ≤ 122)%nat
  || bool_decide (c = "."%char) || bool_decide (c = "-"%char).

Fixpoint sanitize (s : string) : string :=
  match s with
  | EmptyString => EmptyString
  | String c rest => String (if safe_char c then c else "_"%char) (sanitize rest)
  end.

Definition upload_filename (timestamp : N) (originalname : string) : string :=
  pretty timestamp +:+ "_" +:+ sanitize originalname.

(** ** Histories of requests *)

Section Serving.
Variable env : option string.
Variable join : list string → string.

(** What reaches the backend: an upload that multer's disk storage writes, or
    a request to one of the four writing routes with its clock readings. *)
Inductive event :=
| Upload (path : string) (content : list byte)
| PostSubmitSales (t_chain t_meta : N) (rq : Backend.Request)
| PostVerify (t_log t_path : N) (rq : Backend.Request)
| PostAddUser (t_log t_path : N) (rq : Backend.Request)
| DeleteRemoveUser (t_log t_path : N) (rq : Backend.Request).

Definition serve (e : event) (w : Backend.World) : Backend.World :=
  match e with
  | Upload p content =>
      {| Backend.chain := Backend.chain w;
         Backend.sales_files := <[p := content]> (Backend.sales_files w);
         Backend.metadata := Backend.metadata w;
         Backend.audit_logs := Backend.audit_logs w;
         Backend.admin_logs := Backend.admin_logs w |}
  | PostSubmitSales t1 t2 rq =>
      (Backend.route "cashier" (Backend.submit_sales env join t1 t2) rq w).2
  | PostVerify t1 t2 rq =>
      (Backend.route "auditor" (Backend.verify env join t1 t2) rq w).2
  | PostAddUser t1 t2 rq =>
      (Backend.route "admin" (Backend.add_user env join t1 t2) rq w).2
  | DeleteRemoveUser t1 t2 rq =>
      (Backend.route "admin" (Backend.remove_user env join t1 t2) rq w).2
  end.

Definition history (es : list event) (w : Backend.World) : Backend.World :=
  foldl (λ w e, serve e w) w es.

End Serving.

(** What every history keeps true of the identity store and the ledger. *)
Record sound (w : Backend.World) : Prop := {
  users_wellformed :
    ∀ a r, BlockchainService.mockUsers (Backend.chain w) !! a = Some r →
           Backend.bad_address a = false ∧ valid_role r = true;
  records_wellformed :
    ∀ k rec, BlockchainService.mockSalesRecords (Backend.chain w) !! k = Some rec →
             k = BlockchainService.key (BlockchainService.storeId rec)
                   (BlockchainService.date rec)
             ∧ BlockchainService.storeId rec ≠ "" ∧ BlockchainService.date rec ≠ ""
             ∧ String.length (BlockchainService.hash rec) = 64%nat
}.

(** A short history: the upload is stored, the mock cashier submits it, the
    mock auditor verifies it. *)
Definition sample_events : list event :=
  [Upload (Backend.path upload) (Backend.buffer upload);
   PostSubmitSales 10 11 (sales_request BlockchainService.mock_cashier "S1" "2024-01-01");
   PostVerify 20 21 (sales_request BlockchainService.mock_auditor "S1" "2024-01-01")].

(** The characters a stored file name is made of. *)
Definition name_char (c : ascii) : Prop := safe_char c = true ∨ c = "_"%char.

(** The file of [upload] with one byte changed, as multer's memory storage
    leaves it, and POST /verify sent by [a] with the file [f]. *)
Definition altered : Backend.UploadedFile :=
  {| Backend.originalname := "sales.csv";
     Backend.filename := "";
     Backend.path := "";
     Backend.fsize := 3;
     Backend.buffer := String.list_byte_of_string "abd" |}.

Definition audit_request (a storeId date : string) (f : Backend.UploadedFile)
    : Backend.Request :=
  {| Backend.wallet := Some a;
     Backend.body := {| Backend.b_storeId := Some storeId;
                        Backend.b_date := Some date;
                        Backend.b_userAddress := None; Backend.b_role := None |};
     Backend.file := Some f |}.

(** * Properties *)

(** ** The JavaScript helpers *)

Lemma opt_is_true o r : opt_is o r = true ↔ o = Some r.
Proof. unfold opt_is. apply bool_decide_eq_true. Qed.

Lemma opt_is_false o r : opt_is o r = false ↔ o ≠ Some r.
Proof. unfold opt_is. apply bool_decide_eq_false. Qed.

Lemma str_eq_true a b : str_eq a b = true ↔ a = b.
Proof. unfold str_eq. apply bool_decide_eq_true. Qed.

Lemma valid_role_spec r :
  valid_role r = true ↔ r = "admin" ∨ r = "auditor" ∨ r = "cashier".
Proof.
  unfold valid_role. rewrite bool_decide_eq_true.
  rewrite !elem_of_cons, elem_of_nil. tauto.
Qed.

Lemma bad_address_nonempty a : Backend.bad_address a = false → a ≠ "".
Proof. intros H ->. discriminate H. Qed.

(** ** Authorization guard *)

Section Guard.
Import Backend.

(** [authMiddleware] lets a request through exactly when the header names a
    well-formed address that holds one of the three roles, and records that
    role. *)
Lemma authMiddleware_next st r r1 :
  authMiddleware st r = inr r1 ↔
  ∃ a, wallet r = Some a ∧ bad_address a = false
       ∧ BlockchainService.mockUsers st !! a = Some (userRole r1)
       ∧ valid_role (userRole r1) = true
       ∧ r1 = {| req := r; userAddress := a; userRole := userRole r1 |}.
Proof.
  unfold authMiddleware, granted, BlockchainService.hasRole. simpl.
  split.
  - destruct (wallet r) as [a|]; [|discriminate].
    destruct (empty_str a); [discriminate|].
    destruct (bad_address a) eqn:Hbad; [discriminate|].
    repeat case_bool_decide; simplify_eq; simpl; try discriminate;
      intros [= <-]; exists a; simpl;
      repeat split; try done;
      match goal with
      | H : opt_is _ _ = true |- _ => by apply opt_is_true in H
      end.
  - intros (a & -> & Hbad & Hrole & Hvalid & ->). simpl in *.
    pose proof (bad_address_nonempty _ Hbad) as Hne.
    unfold empty_str. rewrite bool_decide_eq_false_2 by done.
    rewrite Hbad, Hrole.
    apply valid_role_spec in Hvalid as [-> | [-> | ->]]; reflexivity.
Qed.

Lemma requireRole_next required r1 r2 :
  requireRole required r1 = inr r2 ↔ userRole r1 = required ∧ r2 = r1.
Proof.
  unfold requireRole, str_eq. case_bool_decide; simpl; split.
  - intros [= <-]. done.
  - intros [_ ->]. done.
  - discriminate.
  - intros [? _]. done.
Qed.

(** The gate as a whole. *)
Lemma gate_next required st r r2 :
  gate required st r = inr r2 ↔
  ∃ a, wallet r = Some a ∧ bad_address a = false
       ∧ BlockchainService.mockUsers st !! a = Some required
       ∧ valid_role required = true
       ∧ r2 = {| req := r; userAddress := a; userRole := required |}.
Proof.
  unfold gate. split.
  - destruct (authMiddleware st r) as [|r1] eqn:Hauth; [discriminate|].
    intros [Hrole ->]%requireRole_next.
    apply authMiddleware_next in Hauth as (a & ? & ? & ? & ? & Hr).
    exists a. rewrite <- Hrole. done.
  - intros (a & Hw & Hbad & Hrole & Hvalid & ->).
    assert (authMiddleware st r
            = inr {| req := r; userAddress := a; userRole := required |}) as ->.
    { apply authMiddleware_next. exists a. done. }
    by apply requireRole_next.
Qed.
End Guard.

(** The role checks written inside the methods. *)
Lemma service_submit_guard now s d h a st :
  (BlockchainService.submitSalesHash now s d h a st).1
    = BlockchainService.reply false "Unauthorized: Cashier role required"
  ↔ BlockchainService.mockUsers st !! a ≠ Some "cashier".
Proof.
  unfold BlockchainService.submitSalesHash.
  destruct (opt_is _ _) eqn:Hrole; simpl.
  - apply opt_is_true in Hrole. case_bool_decide; simpl; split; (discriminate || done).
  - apply opt_is_false in Hrole. done.
Qed.

Lemma service_addUser_guard u r a st :
  BlockchainService.success (BlockchainService.addUser u r a st).1 = true
  ↔ BlockchainService.mockUsers st !! a = Some "admin".
Proof.
  unfold BlockchainService.addUser.
  destruct (opt_is _ _) eqn:Hrole; simpl.
  - apply opt_is_true in Hrole. done.
  - apply opt_is_false in Hrole. split; (discriminate || done).
Qed.

Lemma module_submit_guard now s d h a st :
  (SecurePOSModule.submitSalesHash now s d h a st).1
    = SecurePOSModule.reply false "Unauthorized: Cashier role required"
  ↔ SecurePOSModule.role <$> SecurePOSModule.userRoles st !! a ≠ Some "cashier".
Proof.
  unfold SecurePOSModule.submitSalesHash, SecurePOSModule.hasRoleInternal.
  destruct (opt_is _ _) eqn:Hrole; simpl.
  - apply opt_is_true in Hrole.
    destruct (_ || _); [split; (discriminate || done)|].
    case_bool_decide; simpl; split; (discriminate || done).
  - apply opt_is_false in Hrole. done.
Qed.

(** C4.  Authorization is by exact role match, without hierarchy: the role
    check of the service, the one of the module, [requireRole] and the whole
    HTTP gate succeed exactly when the caller's current role is the required
    one; an admin who submits sales is rejected by the cashier check, in the
    service, in the module and on the route. *)
Theorem exact_role_match :
  (∀ st a r,
     BlockchainService.has_role (BlockchainService.hasRole a r st) = Some true
     ↔ BlockchainService.mockUsers st !! a = Some r)
  ∧ (∀ st a r,
       SecurePOSModule.hasRoleInternal a r st = true
       ↔ SecurePOSModule.role <$> SecurePOSModule.userRoles st !! a = Some r)
  ∧ (∀ required r1,
       (∃ r2, Backend.requireRole required r1 = inr r2) ↔ Backend.userRole r1 = required)
  ∧ (∀ required st rq a,
       Backend.wallet rq = Some a → Backend.bad_address a = false →
       valid_role required = true →
       (∃ r2, Backend.gate required st rq = inr r2)
       ↔ BlockchainService.mockUsers st !! a = Some required)
  ∧ (∀ now s d h a st,
       BlockchainService.mockUsers st !! a = Some "admin" →
       BlockchainService.submitSalesHash now s d h a st
       = (BlockchainService.reply false "Unauthorized: Cashier role required", st))
  ∧ (∀ now s d h a st,
       SecurePOSModule.role <$> SecurePOSModule.userRoles st !! a = Some "admin" →
       SecurePOSModule.submitSalesHash now s d h a st
       = (SecurePOSModule.reply false "Unauthorized: Cashier role required", st))
  ∧ (∀ env join t1 t2 rq a w,
       Backend.wallet rq = Some a → Backend.bad_address a = false →
       BlockchainService.mockUsers (Backend.chain w) !! a = Some "admin" →
       Backend.route "cashier" (Backend.submit_sales env join t1 t2) rq w
       = ({| Backend.status := 403;
             Backend.json := Backend.Failure "Unauthorized: cashier role required" |}, w)).
Proof.
  repeat apply conj.
  - intros st a r. simpl. split.
    + intros [= H]. by apply opt_is_true.
    + intros H. f_equal. by apply opt_is_true.
  - intros st a r. apply opt_is_true.
  - intros required r1. split.
    + intros [r2 H]. by apply requireRole_next in H as [? _].
    + intros H. exists r1. by apply requireRole_next.
  - intros required st rq a Hw Hbad Hvalid. split.
    + intros [r2 (a' & Hw' & _ & Hrole & _)%gate_next]. congruence.
    + intros Hrole. eexists. apply gate_next. exists a. done.
  - intros now s d h a st Hrole. unfold BlockchainService.submitSalesHash.
    rewrite Hrole. reflexivity.
  - intros now s d h a st Hrole.
    unfold SecurePOSModule.submitSalesHash, SecurePOSModule.hasRoleInternal.
    rewrite Hrole. reflexivity.
  - intros env join t1 t2 rq a w Hw Hbad Hrole.
    unfold Backend.route, Backend.gate.
    assert (Backend.authMiddleware (Backend.chain w) rq
            = inr {| Backend.req := rq; Backend.userAddress := a;
                     Backend.userRole := "admin" |}) as ->.
    { apply authMiddleware_next. exists a. done. }
    reflexivity.
Qed.

(** ** The last admin *)

Section LastAdmin.
Import SecurePOSModule ModuleTrace.

Lemma elem_of_admins st a :
  a ∈ admins st ↔ role <$> userRoles st !! a = Some "admin".
Proof.
  unfold admins. rewrite elem_of_dom. unfold is_Some.
  setoid_rewrite map_lookup_filter_Some. simpl.
  destruct (userRoles st !! a) as [u|]; simpl; split.
  - intros (? & [= <-] & ->). done.
  - intros [= H]. eauto.
  - intros (? & ? & _). done.
  - done.
Qed.

(** Where [adminAddresses] mirrors the roles and one admin is left, the guard
    of [removeUser] stops that admin from removing itself. *)
Lemma removeUser_last_admin_consistent st a :
  consistent st → admins st = {[a]} →
  removeUser a a st = (reply false "Cannot remove the last admin", st).
Proof.
  intros Hcons Hone. unfold removeUser, hasRoleInternal.
  assert (role <$> userRoles st !! a = Some "admin") as ->.
  { apply elem_of_admins. rewrite Hone. set_solver. }
  rewrite Hcons, Hone, size_singleton. simpl.
  unfold str_eq. rewrite !bool_decide_eq_true_2 by done. reflexivity.
Qed.

End LastAdmin.

(** C1.  The last admin can be removed.  In the mock service the seeded admin
    is the only admin and [removeUser] lets it remove itself, also through
    DELETE /remove-user; in the module, after an admin was demoted by a grant,
    [adminAddresses] still has two elements, so the guard does not stop the
    only admin left from removing itself.  Both leave no admin at all. *)
Theorem last_admin_is_removed :
  (service_admins BlockchainService.initial = {[deployer]}
   ∧ BlockchainService.success
       (BlockchainService.removeUser deployer deployer BlockchainService.initial).1 = true
   ∧ service_admins
       (BlockchainService.removeUser deployer deployer BlockchainService.initial).2 = ∅)
  ∧ (∀ env join,
       let out := Backend.route "admin" (Backend.remove_user env join 5 6)
                    (remove_request deployer deployer) started in
       Backend.status out.1 = 200%N
       ∧ Backend.json_success (Backend.json out.1) = true
       ∧ service_admins (Backend.chain out.2) = ∅)
  ∧ (ModuleTrace.admins demoted = {[deployer]}
     ∧ SecurePOSModule.adminAddresses demoted = {[deployer; second]}
     ∧ SecurePOSModule.removeUser deployer deployer demoted
       = (SecurePOSModule.reply true "User removed successfully",
          (SecurePOSModule.removeUser deployer deployer demoted).2)
     ∧ ModuleTrace.admins (SecurePOSModule.removeUser deployer deployer demoted).2 = ∅).
Proof.
  repeat apply conj; try compute_done.
  intros env join out. subst out. repeat apply conj; compute_done.
Qed.

(** ** Demotion and [adminAddresses] *)

Section Demotion.
Import SecurePOSModule ModuleTrace.

Lemma addUser_granted now u r a st :
  hasRoleInternal a "admin" st = true → valid_role r = true →
  addUser now u r a st
  = (reply true ("User added to " +:+ r +:+ " role successfully"),
     {| salesRecords := salesRecords st;
        userRoles :=
          <[u := {| address := u; role := r; addedBy := a; granted := now |}]>
            (userRoles st);
        adminAddresses :=
          if str_eq r "admin" then {[u]} ∪ adminAddresses st else adminAddresses st |}).
Proof. intros Ha Hr. unfold addUser. rewrite Ha, Hr. reflexivity. Qed.

Lemma two_elements_not_one (X : gset string) a b :
  a ∈ X → b ∈ X → a ≠ b → size X ≠ 1.
Proof.
  intros Ha Hb Hab [x Hx]%size_1_elem_of.
  apply Hx in Ha, Hb. set_solver.
Qed.

(** Self-removal goes through whenever [adminAddresses] has a second element. *)
Lemma removeUser_self_unguarded st a b :
  hasRoleInternal a "admin" st = true →
  a ∈ adminAddresses st → b ∈ adminAddresses st → a ≠ b →
  (removeUser a a st).1 = reply true "User removed successfully"
  ∧ userRoles (removeUser a a st).2 !! a = None.
Proof.
  intros Hadmin Ha Hb Hab. unfold removeUser. rewrite Hadmin. simpl.
  rewrite (bool_decide_eq_false_2 (size _ = 1))
    by (by apply (two_elements_not_one _ a b)).
  rewrite andb_false_r.
  apply opt_is_true in Hadmin.
  destruct (userRoles st !! a) as [u|]; [|discriminate].
  simpl. split; [done|]. apply lookup_delete_eq.
Qed.

End Demotion.

(** C10.  In the module, [addUser] with a role other than admin for an address
    that is in [adminAddresses] replaces the entry of [userRoles] and leaves
    [adminAddresses] as it was, the address included.  So the guard of
    [removeUser], which reads the size of [adminAddresses], counts the demoted
    address: the granting admin can then remove itself even when it is the only
    admin left, and [adminAddresses] differs from the set of addresses whose
    role is admin, as in the state [demoted]. *)
Theorem demotion_keeps_admin_address :
  (∀ st now b r a,
     SecurePOSModule.hasRoleInternal a "admin" st = true →
     valid_role r = true → r ≠ "admin" →
     b ∈ SecurePOSModule.adminAddresses st →
     let st' := (SecurePOSModule.addUser now b r a st).2 in
     SecurePOSModule.userRoles st' !! b
     = Some {| SecurePOSModule.address := b; SecurePOSModule.role := r;
               SecurePOSModule.addedBy := a; SecurePOSModule.granted := now |}
     ∧ (b ∉ ModuleTrace.admins st')
     ∧ SecurePOSModule.adminAddresses st' = SecurePOSModule.adminAddresses st
     ∧ b ∈ SecurePOSModule.adminAddresses st'
     ∧ (a ≠ b → a ∈ SecurePOSModule.adminAddresses st →
        (SecurePOSModule.removeUser a a st').1
        = SecurePOSModule.reply true "User removed successfully"))
  ∧ (ModuleTrace.admins demoted = {[deployer]}
     ∧ SecurePOSModule.adminAddresses demoted = {[deployer; second]}
     ∧ size (SecurePOSModule.adminAddresses demoted) = 2
     ∧ ¬ ModuleTrace.consistent demoted).
Proof.
  split.
  - intros st now b r a Hadmin Hvalid Hr Hb st'. subst st'.
    rewrite addUser_granted by done. simpl.
    unfold str_eq. rewrite bool_decide_eq_false_2 by done.
    repeat apply conj; [apply lookup_insert_eq| |done|done|].
    + rewrite elem_of_admins. simpl. rewrite lookup_insert_eq. simpl. congruence.
    + intros Hab Ha.
      eapply (removeUser_self_unguarded _ a b); simpl; try done.
      unfold SecurePOSModule.hasRoleInternal in *. simpl.
      by rewrite lookup_insert_ne.
  - repeat apply conj; compute_done.
Qed.

(** ** First write wins *)

Section FirstWrite.
Import BlockchainService ServiceTrace.

Lemma submit_cases now s d h a st :
  (mockUsers st !! a ≠ Some "cashier"
   ∧ submitSalesHash now s d h a st
     = (reply false "Unauthorized: Cashier role required", st))
  ∨ (mockUsers st !! a = Some "cashier"
     ∧ is_Some (mockSalesRecords st !! key s d)
     ∧ submitSalesHash now s d h a st
       = (reply false "Sales record already exists for this date", st))
  ∨ (mockUsers st !! a = Some "cashier"
     ∧ mockSalesRecords st !! key s d = None
     ∧ submitSalesHash now s d h a st
       = (reply true "Sales hash submitted successfully",
          {| mockUsers := mockUsers st;
             mockSalesRecords :=
               <[key s d := {| storeId := s; date := d; hash := h;
                               timestamp := now; submittedBy := a |}]>
                 (mockSalesRecords st) |})).
Proof.
  unfold submitSalesHash.
  destruct (opt_is _ _) eqn:Hrole; simpl.
  - apply opt_is_true in Hrole. right.
    case_bool_decide as Hk; [left; done|right].
    split; [done|]. split; [|done].
    by apply eq_None_not_Some.
  - apply opt_is_false in Hrole. left. done.
Qed.

(** No call of the service changes or deletes a stored sales record. *)
Lemma exec_keeps_record c st k rec :
  mockSalesRecords st !! k = Some rec →
  mockSalesRecords (exec c st).2 !! k = Some rec.
Proof.
  intros Hk. destruct c as [now s d h a|u r a|u a]; simpl.
  - destruct (submit_cases now s d h a st)
      as [[_ ->]|[(_ & _ & ->)|(_ & Hnone & ->)]]; simpl; try done.
    rewrite lookup_insert_ne; [done|]. intros <-. congruence.
  - unfold addUser. destruct (negb _); done.
  - unfold removeUser. destruct (negb _); [done|]. case_bool_decide; done.
Qed.

Lemma run_keeps_record cs st k rec :
  mockSalesRecords st !! k = Some rec →
  mockSalesRecords (run cs st) !! k = Some rec.
Proof.
  revert st. induction cs as [|c cs IH]; intros st Hk; [done|].
  simpl. apply IH. by apply exec_keeps_record.
Qed.

Lemma service_first_write_wins now s d h a st :
  success (submitSalesHash now s d h a st).1 = true →
  let first := {| storeId := s; date := d; hash := h;
                  timestamp := now; submittedBy := a |} in
  let st1 := (submitSalesHash now s d h a st).2 in
  mockSalesRecords st1 !! key s d = Some first
  ∧ ∀ cs now' h' a',
      let st2 := run cs st1 in
      let out := submitSalesHash now' s d h' a' st2 in
      success out.1 = false
      ∧ out.2 = st2
      ∧ mockSalesRecords out.2 !! key s d = Some first
      ∧ (mockUsers st2 !! a' = Some "cashier" →
         out.1 = reply false "Sales record already exists for this date").
Proof.
  intros Hok first st1.
  assert (mockSalesRecords st1 !! key s d = Some first) as Hfirst.
  { subst st1. destruct (submit_cases now s d h a st)
      as [[_ Heq]|[(_ & _ & Heq)|(_ & _ & Heq)]]; rewrite Heq in Hok |- *;
      simpl in *; try discriminate.
    apply lookup_insert_eq. }
  split; [done|]. intros cs now' h' a' st2 out.
  pose proof (run_keeps_record cs st1 _ _ Hfirst) as Hkept.
  fold st2 in Hkept. subst out.
  destruct (submit_cases now' s d h' a' st2)
    as [[Hno ->]|[(_ & _ & ->)|(_ & Hnone & _)]]; simpl; [done..|congruence].
Qed.

End FirstWrite.

Section FirstWriteModule.
Import SecurePOSModule ModuleTrace.

Lemma module_submit_cases now s d h a st :
  (hasRoleInternal a "cashier" st = false
   ∧ submitSalesHash now s d h a st
     = (reply false "Unauthorized: Cashier role required", st))
  ∨ (hasRoleInternal a "cashier" st = true
     ∧ (s = "" ∨ d = "" ∨ h = "")
     ∧ submitSalesHash now s d h a st
       = (reply false "Missing required parameters", st))
  ∨ (hasRoleInternal a "cashier" st = true
     ∧ s ≠ "" ∧ d ≠ "" ∧ h ≠ ""
     ∧ is_Some (salesRecords st !! key s d)
     ∧ submitSalesHash now s d h a st
       = (reply false "Sales record for this store and date already exists", st))
  ∨ (hasRoleInternal a "cashier" st = true
     ∧ s ≠ "" ∧ d ≠ "" ∧ h ≠ ""
     ∧ salesRecords st !! key s d = None
     ∧ submitSalesHash now s d h a st
       = (reply true "Sales hash submitted successfully",
          {| salesRecords :=
               <[key s d := {| storeId := s; date := d; hash := h;
                               timestamp := now; submittedBy := a |}]>
                 (salesRecords st);
             userRoles := userRoles st;
             adminAddresses := adminAddresses st |})).
Proof.
  unfold submitSalesHash, empty_str.
  destruct (hasRoleInternal a "cashier" st); simpl; [right|left; done].
  destruct (decide (s = "")) as [->|Hs]; [left; auto|].
  destruct (decide (d = "")) as [->|Hd].
  { left. rewrite (bool_decide_eq_false_2 (s = "")) by done. auto. }
  destruct (decide (h = "")) as [->|Hh].
  { left. rewrite !(bool_decide_eq_false_2 (_ = "")) by done. auto. }
  right. rewrite !(bool_decide_eq_false_2 (_ = "")) by done. simpl.
  case_bool_decide as Hk; [left; done|right].
  repeat split; try done. by apply eq_None_not_Some.
Qed.

Lemma module_exec_keeps_record c st k rec :
  salesRecords st !! k = Some rec →
  salesRecords (exec c st).2 !! k = Some rec.
Proof.
  intros Hk. destruct c as [now s d h a|now u r a|u a]; simpl.
  - destruct (module_submit_cases now s d h a st)
      as [[_ ->]|[(_ & _ & ->)|[(_ & _ & _ & _ & _ & ->)|(_ & _ & _ & _ & Hnone & ->)]]];
      simpl; try done.
    rewrite lookup_insert_ne; [done|]. intros <-. congruence.
  - unfold addUser. destruct (negb _); [done|]. destruct (negb _); done.
  - unfold removeUser. destruct (negb _); [done|]. destruct (_ && _); [done|].
    destruct (userRoles st !! u); done.
Qed.

Lemma module_run_keeps_record cs st k rec :
  salesRecords st !! k = Some rec →
  salesRecords (run cs st) !! k = Some rec.
Proof.
  revert st. induction cs as [|c cs IH]; intros st Hk; [done|].
  simpl. apply IH. by apply module_exec_keeps_record.
Qed.

Lemma module_first_write_wins now s d h a st :
  success (submitSalesHash now s d h a st).1 = true →
  let first := {| storeId := s; date := d; hash := h;
                  timestamp := now; submittedBy := a |} in
  let st1 := (submitSalesHash now s d h a st).2 in
  salesRecords st1 !! key s d = Some first
  ∧ ∀ cs now' h' a',
      let st2 := run cs st1 in
      let out := submitSalesHash now' s d h' a' st2 in
      success out.1 = false
      ∧ out.2 = st2
      ∧ salesRecords out.2 !! key s d = Some first
      ∧ (hasRoleInternal a' "cashier" st2 = true → h' ≠ "" →
         out.1 = reply false "Sales record for this store and date already exists").
Proof.
  intros Hok first st1.
  assert (salesRecords st1 !! key s d = Some first ∧ s ≠ "" ∧ d ≠ "")
    as (Hfirst & Hs & Hd).
  { subst st1. destruct (module_submit_cases now s d h a st)
      as [[_ Heq]|[(_ & _ & Heq)|[(_ & _ & _ & _ & _ & Heq)|(_ & ? & ? & _ & _ & Heq)]]];
      rewrite Heq in Hok |- *; simpl in *; try discriminate.
    split; [apply lookup_insert_eq|done]. }
  split; [done|]. intros cs now' h' a' st2 out.
  pose proof (module_run_keeps_record cs st1 _ _ Hfirst) as Hkept.
  fold st2 in Hkept. subst out.
  destruct (module_submit_cases now' s d h' a' st2)
    as [[Hno ->]|[(_ & Hmiss & ->)|[(_ & _ & _ & _ & _ & ->)|(_ & _ & _ & _ & Hnone & _)]]];
    simpl; [| |done|congruence].
  - repeat split; try done. congruence.
  - repeat split; try done. intros _ Hh. destruct Hmiss as [?|[?|?]]; done.
Qed.

End FirstWriteModule.

(** C2.  First write wins.  After a successful [submitSalesHash] for
    [(storeId, date)] the record stored under the key is the submitted one, and
    after any further calls of the service every later [submitSalesHash] for
    the same key, whatever its digest, time and sender, fails and leaves the
    state, and with it the stored record, as it was.  The failure is the
    duplicate-key message whenever the call passes the cashier check that
    precedes it (and, in the module, brings a non-empty digest). *)
Theorem first_write_wins :
  (∀ now s d h a st,
     BlockchainService.success (BlockchainService.submitSalesHash now s d h a st).1 = true →
     let first := {| BlockchainService.storeId := s; BlockchainService.date := d;
                     BlockchainService.hash := h; BlockchainService.timestamp := now;
                     BlockchainService.submittedBy := a |} in
     let st1 := (BlockchainService.submitSalesHash now s d h a st).2 in
     BlockchainService.mockSalesRecords st1 !! BlockchainService.key s d = Some first
     ∧ ∀ cs now' h' a',
         let st2 := ServiceTrace.run cs st1 in
         let out := BlockchainService.submitSalesHash now' s d h' a' st2 in
         BlockchainService.success out.1 = false
         ∧ out.2 = st2
         ∧ BlockchainService.mockSalesRecords out.2 !! BlockchainService.key s d
           = Some first
         ∧ (BlockchainService.mockUsers st2 !! a' = Some "cashier" →
            out.1 = BlockchainService.reply false
                      "Sales record already exists for this date"))
  ∧ (∀ now s d h a st,
       SecurePOSModule.success (SecurePOSModule.submitSalesHash now s d h a st).1 = true →
       let first := {| SecurePOSModule.storeId := s; SecurePOSModule.date := d;
                       SecurePOSModule.hash := h; SecurePOSModule.timestamp := now;
                       SecurePOSModule.submittedBy := a |} in
       let st1 := (SecurePOSModule.submitSalesHash now s d h a st).2 in
       SecurePOSModule.salesRecords st1 !! SecurePOSModule.key s d = Some first
       ∧ ∀ cs now' h' a',
           let st2 := ModuleTrace.run cs st1 in
           let out := SecurePOSModule.submitSalesHash now' s d h' a' st2 in
           SecurePOSModule.success out.1 = false
           ∧ out.2 = st2
           ∧ SecurePOSModule.salesRecords out.2 !! SecurePOSModule.key s d = Some first
           ∧ (SecurePOSModule.hasRoleInternal a' "cashier" st2 = true → h' ≠ "" →
              out.1 = SecurePOSModule.reply false
                        "Sales record for this store and date already exists")).
Proof.
  split.
  - exact service_first_write_wins.
  - exact module_first_write_wins.
Qed.

(** ** Verification and the audit trail *)

Section Verification.
Import Backend.
Variable env : option string.
Variable join : list string → string.

(** A request that passes the gate reaches the handler with the caller's
    address and role. *)
Lemma route_granted required handler rq w a :
  wallet rq = Some a → bad_address a = false →
  BlockchainService.mockUsers (chain w) !! a = Some required →
  valid_role required = true →
  route required handler rq w
  = handler {| req := rq; userAddress := a; userRole := required |} w.
Proof.
  intros Hw Hbad Hrole Hvalid. unfold route.
  assert (gate required (chain w) rq
          = inr {| req := rq; userAddress := a; userRole := required |}) as ->.
  { apply gate_next. exists a. done. }
  reflexivity.
Qed.

(** A request that the gate stops changes nothing. *)
Lemma route_denied required handler rq w denied :
  gate required (chain w) rq = inl denied →
  route required handler rq w = (denied, w).
Proof. intros H. unfold route. rewrite H. reflexivity. Qed.

Lemma gate_denied_failure required st rq denied :
  gate required st rq = inl denied →
  json_success (json denied) = false ∧ (status denied = 401 ∨ status denied = 403)%N.
Proof.
  unfold gate, authMiddleware, requireRole.
  repeat (case_match; simpl); intros; simplify_eq; simpl; auto.
Qed.

(** The handler of /verify when the ledger has no record under the key. *)
Lemma verify_missing t1 t2 r w f s d :
  file (req r) = Some f →
  b_storeId (body (req r)) = Some s → b_date (body (req r)) = Some d →
  s ≠ "" → d ≠ "" →
  BlockchainService.mockSalesRecords (chain w) !! BlockchainService.key s d = None →
  verify env join t1 t2 r w
  = ({| status := 404;
        json := Failure "No sales record found for the specified store and date" |}, w).
Proof.
  intros Hf Hs Hd Hs' Hd' Hk. unfold verify, BlockchainService.getSalesHash, empty_str.
  rewrite Hf, Hs, Hd, Hk, !bool_decide_eq_false_2 by done. reflexivity.
Qed.

(** The handler of /verify when the ledger has a record under the key. *)
Lemma verify_found t1 t2 r w f s d rec :
  file (req r) = Some f →
  b_storeId (body (req r)) = Some s → b_date (body (req r)) = Some d →
  s ≠ "" → d ≠ "" →
  BlockchainService.mockSalesRecords (chain w) !! BlockchainService.key s d = Some rec →
  let matched := str_eq (Sha256.sha256_hex (buffer f)) (BlockchainService.hash rec) in
  verify env join t1 t2 r w
  = ({| status := 200;
        json :=
          VerifyOk
            (if matched then "File verification successful"
             else "File verification failed")
            {| vd_storeId := s; vd_date := d; vd_hashMatch := matched;
               vd_uploadedHash := Sha256.sha256_hex (buffer f);
               vd_storedHash := BlockchainService.hash rec;
               vd_submittedBy := BlockchainService.submittedBy rec;
               vd_submittedAt := BlockchainService.timestamp rec;
               vd_auditedBy := userAddress r;
               vd_auditTimestamp := t1 |} |},
     {| chain := chain w;
        sales_files := sales_files w;
        metadata := metadata w;
        audit_logs :=
          <[auditLogPath env join s d t2 :=
              {| auditedBy := userAddress r; al_storeId := s; al_date := d;
                 uploadedHash := Sha256.sha256_hex (buffer f);
                 storedHash := BlockchainService.hash rec;
                 hashMatch := matched;
                 al_filename := originalname f; fileSize := fsize f;
                 al_timestamp := t1; originalSubmission := rec |}]>
            (audit_logs w);
        admin_logs := admin_logs w |}).
Proof.
  intros Hf Hs Hd Hs' Hd' Hk. unfold verify, BlockchainService.getSalesHash, empty_str.
  rewrite Hf, Hs, Hd, Hk, !bool_decide_eq_false_2 by done. reflexivity.
Qed.

End Verification.

Section AuditTrail.
Import Backend.
Variable env : option string.
Variable join : list string → string.

(** One verification by an auditor against a stored record. *)
Lemma verify_route_found t1 t2 rq w a f s d rec :
  wallet rq = Some a → bad_address a = false →
  BlockchainService.mockUsers (chain w) !! a = Some "auditor" →
  file rq = Some f → b_storeId (body rq) = Some s → b_date (body rq) = Some d →
  s ≠ "" → d ≠ "" →
  BlockchainService.mockSalesRecords (chain w) !! BlockchainService.key s d = Some rec →
  let out := route "auditor" (verify env join t1 t2) rq w in
  let uploaded := Sha256.sha256_hex (buffer f) in
  let matched := bool_decide (uploaded = BlockchainService.hash rec) in
  status out.1 = 200%N
  ∧ json_success (json out.1) = true
  ∧ chain out.2 = chain w
  ∧ audit_logs out.2
    = <[auditLogPath env join s d t2 :=
          {| auditedBy := a; al_storeId := s; al_date := d;
             uploadedHash := uploaded;
             storedHash := BlockchainService.hash rec;
             hashMatch := matched;
             al_filename := originalname f; fileSize := fsize f;
             al_timestamp := t1; originalSubmission := rec |}]>
        (audit_logs w).
Proof.
  intros Hw Hbad Hrole Hf Hs Hd Hs' Hd' Hk out uploaded matched. subst out.
  rewrite (route_granted _ _ _ _ a) by done.
  rewrite (verify_found env join t1 t2 _ w f s d rec) by done.
  simpl. done.
Qed.


End AuditTrail.


(** ** The admin action log *)

Section AdminLog.
Import Backend.
Variable env : option string.
Variable join : list string → string.

Lemma set_chain_same w : set_chain (chain w) w = w.
Proof. by destruct w. Qed.

(** What POST /add-user does once the admin gate is passed. *)
Lemma add_user_outcome t1 t2 r w :
  BlockchainService.mockUsers (chain w) !! userAddress r = Some "admin" →
  let out := add_user env join t1 t2 r w in
  (json_success (json out.1) = false ∧ out.2 = w)
  ∨ (∃ target role,
       b_userAddress (body (req r)) = Some target
       ∧ b_role (body (req r)) = Some role
       ∧ valid_role role = true ∧ bad_address target = false
       ∧ out.1 = {| status := 200;
                    json := Result (BlockchainService.reply true
                              ("User added to " +:+ role +:+ " role successfully")) |}
       ∧ chain out.2
         = {| BlockchainService.mockUsers :=
                <[target := role]> (BlockchainService.mockUsers (chain w));
              BlockchainService.mockSalesRecords :=
                BlockchainService.mockSalesRecords (chain w) |}
       ∧ admin_logs out.2
         = <[adminLogPath env join t2 :=
               {| action := "add_user"; adminAddress := userAddress r;
                  targetAddress := target; log_role := Some role;
                  log_timestamp := t1 |}]> (admin_logs w)).
Proof.
  intros Hadmin out. subst out. unfold add_user.
  destruct (b_userAddress _) as [target|]; [|left; done].
  destruct (b_role _) as [role|]; [|left; done].
  destruct (_ || _); [left; done|].
  destruct (valid_role role) eqn:Hvalid; [|left; done]. simpl.
  destruct (bad_address target) eqn:Hbad; [left; done|].
  unfold BlockchainService.addUser. rewrite Hadmin. simpl.
  right. exists target, role. done.
Qed.

(** What DELETE /remove-user does once the admin gate is passed. *)
Lemma remove_user_outcome t1 t2 r w :
  BlockchainService.mockUsers (chain w) !! userAddress r = Some "admin" →
  let out := remove_user env join t1 t2 r w in
  (json_success (json out.1) = false ∧ out.2 = w)
  ∨ (∃ target,
       b_userAddress (body (req r)) = Some target
       ∧ is_Some (BlockchainService.mockUsers (chain w) !! target)
       ∧ out.1 = {| status := 200;
                    json := Result (BlockchainService.reply true
                              "User removed successfully") |}
       ∧ chain out.2
         = {| BlockchainService.mockUsers :=
                delete target (BlockchainService.mockUsers (chain w));
              BlockchainService.mockSalesRecords :=
                BlockchainService.mockSalesRecords (chain w) |}
       ∧ admin_logs out.2
         = <[adminLogPath env join t2 :=
               {| action := "remove_user"; adminAddress := userAddress r;
                  targetAddress := target; log_role := None;
                  log_timestamp := t1 |}]> (admin_logs w)).
Proof.
  intros Hadmin out. subst out. unfold remove_user.
  destruct (b_userAddress _) as [target|]; [|left; done].
  destruct (empty_str target); [left; done|].
  unfold BlockchainService.removeUser. rewrite Hadmin. simpl.
  case_bool_decide as Hknown; simpl.
  - right. exists target. done.
  - left. split; [done|]. apply set_chain_same.
Qed.

(** A handler behind the admin gate runs only for a caller that is admin. *)
Lemma admin_route_cases handler rq w :
  (json_success (json (route "admin" handler rq w).1) = false
   ∧ (route "admin" handler rq w).2 = w)
  ∨ (∃ a, wallet rq = Some a
          ∧ BlockchainService.mockUsers (chain w) !! a = Some "admin"
          ∧ route "admin" handler rq w
            = handler {| req := rq; userAddress := a; userRole := "admin" |} w).
Proof.
  unfold route. destruct (gate "admin" (chain w) rq) as [denied|r2] eqn:Hgate.
  - left. split; [|done]. by apply gate_denied_failure in Hgate as [? _].
  - right. apply gate_next in Hgate as (a & ? & ? & ? & ? & ->). exists a. done.
Qed.

End AdminLog.


(** ** The digest *)

Section Digest.
Import Sha256.


Lemma list_ascii_app s1 s2 :
  String.list_ascii_of_string (s1 +:+ s2)
  = (String.list_ascii_of_string s1 ++ String.list_ascii_of_string s2)%list.
Proof. induction s1 as [|c s1 IH]; simpl; [done|]. by rewrite IH. Qed.






(** The standard test vectors. *)
Example sha256_empty :
  sha256_hex []
  = "e3b0c44298fc1c149afbf4c8996fb92427ae41e4649b934ca495991b7852b855".
Proof. by vm_compute. Qed.

Example sha256_abc :
  sha256_hex (String.list_byte_of_string "abc")
  = "ba7816bf8f01cfea414140de5dae2223b00361a396177a9cb410ff61f20015ad".
Proof. by vm_compute. Qed.

Example sha256_two_blocks :
  sha256_hex (String.list_byte_of_string
                "abcdbcdecdefdefgefghfghighijhijkijkljklmklmnlmnomnopnopq")
  = "248d6a61d20638b8e5c026930c3e6039a33ce45964ff2167f6ecedd419db06c1".
Proof. by vm_compute. Qed.

End Digest.

Section SubmitRoute.
Import Backend.
Variable env : option string.
Variable join : list string → string.

(** POST /submit-sales by a cashier for a key that is free: the digest of the
    stored upload goes to the ledger. *)
Lemma submit_route_stored t1 t2 rq w a f s d content :
  wallet rq = Some a → bad_address a = false →
  BlockchainService.mockUsers (chain w) !! a = Some "cashier" →
  file rq = Some f → b_storeId (body rq) = Some s → b_date (body rq) = Some d →
  s ≠ "" → d ≠ "" →
  sales_files w !! path f = Some content →
  BlockchainService.mockSalesRecords (chain w) !! BlockchainService.key s d = None →
  let out := route "cashier" (submit_sales env join t1 t2) rq w in
  out.1 = {| status := 200;
             json := SubmitOk s d (Sha256.sha256_hex content) (filename f) (fsize f) |}
  ∧ BlockchainService.mockUsers (chain out.2) = BlockchainService.mockUsers (chain w)
  ∧ BlockchainService.mockSalesRecords (chain out.2)
    = <[BlockchainService.key s d :=
          {| BlockchainService.storeId := s; BlockchainService.date := d;
             BlockchainService.hash := Sha256.sha256_hex content;
             BlockchainService.timestamp := t1;
             BlockchainService.submittedBy := a |}]>
        (BlockchainService.mockSalesRecords (chain w))
  ∧ audit_logs out.2 = audit_logs w.
Proof.
  intros Hw Hbad Hrole Hf Hs Hd Hs' Hd' Hfile Hk out. subst out.
  rewrite (route_granted _ _ _ _ a) by done.
  unfold submit_sales, BlockchainService.submitSalesHash, empty_str. simpl.
  rewrite Hf, Hs, Hd, Hfile, Hrole, Hk, !bool_decide_eq_false_2 by done. simpl.
  repeat split.
Qed.

End SubmitRoute.


(** ** Verification without a record *)

Section MissingRecord.
Import Backend.
Variable env : option string.
Variable join : list string → string.

(** With no record under the key string, a verification by an auditor is
    answered 404 and nothing is written: no sales record, no audit log. *)
Lemma verify_route_missing t1 t2 rq w a f s d :
  wallet rq = Some a → bad_address a = false →
  BlockchainService.mockUsers (chain w) !! a = Some "auditor" →
  file rq = Some f → b_storeId (body rq) = Some s → b_date (body rq) = Some d →
  s ≠ "" → d ≠ "" →
  BlockchainService.mockSalesRecords (chain w) !! BlockchainService.key s d = None →
  route "auditor" (verify env join t1 t2) rq w
  = ({| status := 404;
        json := Failure "No sales record found for the specified store and date" |}, w).
Proof.
  intros Hw Hbad Hrole Hf Hs Hd Hs' Hd' Hk.
  rewrite (route_granted _ _ _ _ a) by done.
  by apply verify_missing with f s d.
Qed.

(** No answer of /verify changes the ledger. *)
Lemma verify_keeps_chain t1 t2 r w : chain (verify env join t1 t2 r w).2 = chain w.
Proof.
  unfold verify. repeat (case_match; simpl; try done).
Qed.

End MissingRecord.

(** Two different pairs with one key string. *)
Lemma key_collision :
  ("S:1", "2024") ≠ ("S", "1:2024")
  ∧ BlockchainService.key "S:1" "2024" = BlockchainService.key "S" "1:2024"
  ∧ SecurePOSModule.key "S:1" "2024" = SecurePOSModule.key "S" "1:2024".
Proof. repeat split. discriminate. Qed.

(** C6.  A verification finds the record of another key.  The cashier submits
    for store "S:1" and date "2024", the only submission there is; the auditor
    then verifies for store "S" and date "1:2024", a pair nobody submitted.
    Both pairs give the key string "S:1:2024", so the answer is 200 and not
    404, and an audit log is written for the pair that was never submitted,
    with the submission of the other store as its original. *)
Theorem verify_finds_record_of_other_key :
  ∀ env join,
    let w1 := Backend.route "cashier" (Backend.submit_sales env join 10 11)
                (sales_request BlockchainService.mock_cashier "S:1" "2024") uploaded in
    let out := Backend.route "auditor" (Backend.verify env join 20 21)
                 (sales_request BlockchainService.mock_auditor "S" "1:2024") w1.2 in
    BlockchainService.mockSalesRecords (Backend.chain uploaded) = ∅
    ∧ Backend.json_success (Backend.json w1.1) = true
    ∧ dom (BlockchainService.mockSalesRecords (Backend.chain w1.2))
      = {[ BlockchainService.key "S:1" "2024" ]}
    ∧ Backend.status out.1 = 200%N
    ∧ Backend.json_success (Backend.json out.1) = true
    ∧ ∃ log,
        Backend.audit_logs out.2
        = {[ Backend.auditLogPath env join "S" "1:2024" 21 := log ]}
        ∧ Backend.al_storeId log = "S" ∧ Backend.al_date log = "1:2024"
        ∧ BlockchainService.storeId (Backend.originalSubmission log) = "S:1"
        ∧ BlockchainService.date (Backend.originalSubmission log) = "2024"
        ∧ Backend.hashMatch log = true.
Proof.
  intros env join w1 out.
  destruct (submit_route_stored env join 10 11
              (sales_request BlockchainService.mock_cashier "S:1" "2024") uploaded
              BlockchainService.mock_cashier upload "S:1" "2024" (Backend.buffer upload))
    as (Hresp & Husers & Hrecords & Hlogs); [compute_done..|].
  fold w1 in Hresp, Husers, Hrecords, Hlogs.
  destruct (verify_route_found env join 20 21
              (sales_request BlockchainService.mock_auditor "S" "1:2024") w1.2
              BlockchainService.mock_auditor upload "S" "1:2024"
              {| BlockchainService.storeId := "S:1"; BlockchainService.date := "2024";
                 BlockchainService.hash := Sha256.sha256_hex (Backend.buffer upload);
                 BlockchainService.timestamp := 10;
                 BlockchainService.submittedBy := BlockchainService.mock_cashier |})
    as (Hstatus & Hsuccess & Hchain & Hlogs');
    [compute_done|compute_done|rewrite Husers; compute_done|compute_done..
    |rewrite Hrecords; apply lookup_insert_eq|].
  fold out in Hstatus, Hsuccess, Hchain, Hlogs'.
  split; [compute_done|].
  split; [by rewrite Hresp|].
  split; [rewrite Hrecords; compute_done|].
  split; [exact Hstatus|]. split; [exact Hsuccess|].
  eexists. rewrite Hlogs', Hlogs. split; [reflexivity|].
  cbn [Backend.al_storeId Backend.al_date Backend.originalSubmission
       Backend.hashMatch BlockchainService.storeId BlockchainService.date
       BlockchainService.hash].
  repeat split.
Qed.

(** ** Granting a role *)

(** The mock service stores whatever role string it is given. *)
Lemma service_addUser_takes_any_role :
  ¬ (∀ st u r a,
       valid_role r = false →
       BlockchainService.success (BlockchainService.addUser u r a st).1 = false).
Proof.
  intros H.
  specialize (H BlockchainService.initial BlockchainService.mock_cashier "manager"
                BlockchainService.default_admin eq_refl).
  vm_compute in H. discriminate H.
Qed.

(** C3, as the code has it.  [addUser] succeeds exactly when the sender holds
    admin, in the module for a role of the closed set only, and a success
    replaces the entry of the target so that its role is the granted one; a
    failure changes nothing.  The module answers a role outside the set with
    "Invalid role specified".  The mock service does not look at the role: in
    the backend it is the handler of POST /add-user that answers 400 to such a
    role, before the service is called. *)
Theorem grant_upserts_role :
  (∀ now u r a st,
     let out := SecurePOSModule.addUser now u r a st in
     (SecurePOSModule.success out.1 = true
      ↔ SecurePOSModule.hasRoleInternal a "admin" st = true ∧ valid_role r = true)
     ∧ (SecurePOSModule.success out.1 = true →
        SecurePOSModule.userRoles out.2 !! u
        = Some {| SecurePOSModule.address := u; SecurePOSModule.role := r;
                  SecurePOSModule.addedBy := a; SecurePOSModule.granted := now |}
        ∧ SecurePOSModule.rr_role (SecurePOSModule.hasRole u r out.2) = Some r
        ∧ SecurePOSModule.rr_hasRole (SecurePOSModule.hasRole u r out.2) = true)
     ∧ (SecurePOSModule.success out.1 = false → out.2 = st)
     ∧ (SecurePOSModule.hasRoleInternal a "admin" st = true → valid_role r = false →
        out.1 = SecurePOSModule.reply false "Invalid role specified"))
  ∧ (∀ u r a st,
       let out := BlockchainService.addUser u r a st in
       (BlockchainService.success out.1 = true
        ↔ BlockchainService.mockUsers st !! a = Some "admin")
       ∧ (BlockchainService.success out.1 = true →
          BlockchainService.mockUsers out.2 = <[u := r]> (BlockchainService.mockUsers st)
          ∧ BlockchainService.role (BlockchainService.hasRole u r out.2) = Some r)
       ∧ (BlockchainService.success out.1 = false → out.2 = st))
  ∧ (∀ env join t1 t2 rq w a u r,
       Backend.wallet rq = Some a → Backend.bad_address a = false →
       BlockchainService.mockUsers (Backend.chain w) !! a = Some "admin" →
       Backend.b_userAddress (Backend.body rq) = Some u →
       Backend.b_role (Backend.body rq) = Some r →
       u ≠ "" → r ≠ "" → valid_role r = false →
       Backend.route "admin" (Backend.add_user env join t1 t2) rq w
       = ({| Backend.status := 400;
             Backend.json :=
               Backend.Failure "Invalid role. Must be admin, auditor, or cashier" |}, w)).
Proof.
  repeat apply conj.
  - intros now u r a st out. subst out. unfold SecurePOSModule.addUser.
    destruct (SecurePOSModule.hasRoleInternal a "admin" st) eqn:Hadmin; simpl.
    2:{ repeat split; try done. intros [? _]. done. }
    destruct (valid_role r) eqn:Hvalid; simpl.
    2:{ repeat split; try done. intros [_ ?]. done. }
    repeat split; try done.
    + apply lookup_insert_eq.
    + by rewrite lookup_insert_eq.
    + unfold SecurePOSModule.hasRoleInternal. simpl. rewrite lookup_insert_eq.
      by apply opt_is_true.
  - intros u r a st out. subst out. unfold BlockchainService.addUser.
    destruct (opt_is _ _) eqn:Hadmin; simpl.
    + apply opt_is_true in Hadmin. repeat split; try done.
      apply lookup_insert_eq.
    + apply opt_is_false in Hadmin. repeat split; try done.
  - intros env join t1 t2 rq w a u r Hw Hbad Hadmin Hu Hr Hu' Hr' Hvalid.
    rewrite (route_granted _ _ _ _ a) by done.
    unfold Backend.add_user, empty_str. simpl.
    rewrite Hu, Hr, Hvalid, !bool_decide_eq_false_2 by done. reflexivity.
Qed.

(** ** Failure modes of the gate *)

(** A caller without any role is not answered 401. *)
Lemma no_role_is_not_unauthenticated :
  ¬ (∀ required st rq a,
       Backend.wallet rq = Some a →
       BlockchainService.mockUsers st !! a = None →
       ∃ denied, Backend.gate required st rq = inl denied
                 ∧ auth_error denied = Some Unauthenticated).
Proof.
  intros H.
  destruct (H "cashier" BlockchainService.initial
              (sales_request stranger "S1" "2024-01-01") stranger)
    as (denied & Hgate & Herr); [compute_done..|].
  vm_compute in Hgate. injection Hgate as <-.
  vm_compute in Herr. discriminate Herr.
Qed.

(** C5, as the code has it.  The gate answers 401 only to a missing, empty or
    malformed wallet address.  A well-formed address without one of the three
    roles is answered 403 by [authMiddleware], an address whose role is not the
    required one is answered 403 by [requireRole]: the status is the same and
    the two differ by their message.  In each case the handler does not run.
    The role checks inside the service and the module give one and the same
    answer to a sender without a role and to a sender with another role. *)
Theorem gate_failure_modes :
  (∀ required handler rq w,
     (Backend.wallet rq = None ∨ Backend.wallet rq = Some "") →
     Backend.route required handler rq w
     = ({| Backend.status := 401;
           Backend.json := Backend.Failure "Wallet address required" |}, w))
  ∧ (∀ required handler rq w a,
       Backend.wallet rq = Some a → a ≠ "" → Backend.bad_address a = true →
       Backend.route required handler rq w
       = ({| Backend.status := 401;
             Backend.json := Backend.Failure "Invalid wallet address format" |}, w))
  ∧ (∀ required handler rq w a,
       Backend.wallet rq = Some a → Backend.bad_address a = false →
       (∀ r, BlockchainService.mockUsers (Backend.chain w) !! a = Some r →
             valid_role r = false) →
       Backend.route required handler rq w
       = ({| Backend.status := 403;
             Backend.json := Backend.Failure "Unauthorized: No valid role assigned" |}, w))
  ∧ (∀ required handler rq w a r,
       Backend.wallet rq = Some a → Backend.bad_address a = false →
       BlockchainService.mockUsers (Backend.chain w) !! a = Some r →
       valid_role r = true → r ≠ required →
       Backend.route required handler rq w
       = ({| Backend.status := 403;
             Backend.json :=
               Backend.Failure ("Unauthorized: " +:+ required +:+ " role required") |}, w))
  ∧ (∀ now s d h a st,
       BlockchainService.mockUsers st !! a ≠ Some "cashier" →
       BlockchainService.submitSalesHash now s d h a st
       = (BlockchainService.reply false "Unauthorized: Cashier role required", st))
  ∧ (∀ now s d h a st,
       SecurePOSModule.role <$> SecurePOSModule.userRoles st !! a ≠ Some "cashier" →
       SecurePOSModule.submitSalesHash now s d h a st
       = (SecurePOSModule.reply false "Unauthorized: Cashier role required", st)).
Proof.
  repeat apply conj.
  - intros required handler rq w [Hw|Hw];
      unfold Backend.route, Backend.gate, Backend.authMiddleware; by rewrite Hw.
  - intros required handler rq w a Hw Hne Hbad.
    unfold Backend.route, Backend.gate, Backend.authMiddleware, empty_str.
    by rewrite Hw, bool_decide_eq_false_2, Hbad.
  - intros required handler rq w a Hw Hbad Hnone.
    unfold Backend.route, Backend.gate.
    destruct (Backend.authMiddleware (Backend.chain w) rq) as [denied|r1] eqn:Hauth.
    + revert Hauth. unfold Backend.authMiddleware, empty_str.
      rewrite Hw, bool_decide_eq_false_2, Hbad by (by apply bad_address_nonempty).
      repeat case_match; try done. by intros [= <-].
    + apply authMiddleware_next in Hauth as (a' & Hw' & _ & Hrole & Hvalid & _).
      rewrite Hw in Hw'. injection Hw' as <-.
      apply Hnone in Hrole. congruence.
  - intros required handler rq w a r Hw Hbad Hrole Hvalid Hne.
    unfold Backend.route, Backend.gate.
    assert (Backend.authMiddleware (Backend.chain w) rq
            = inr {| Backend.req := rq; Backend.userAddress := a;
                     Backend.userRole := r |}) as ->.
    { apply authMiddleware_next. exists a. done. }
    unfold Backend.requireRole, str_eq. simpl.
    by rewrite bool_decide_eq_false_2.
  - intros now s d h a st Hrole. unfold BlockchainService.submitSalesHash.
    apply opt_is_false in Hrole. by rewrite Hrole.
  - intros now s d h a st Hrole.
    unfold SecurePOSModule.submitSalesHash, SecurePOSModule.hasRoleInternal.
    apply opt_is_false in Hrole. by rewrite Hrole.
Qed.

(** ** Logs written in the same millisecond *)

Section SameName.
Import Backend.
Variable env : option string.
Variable join : list string → string.

(** Two verifications of one store and date whose file names carry the same
    reading of the clock: the second log is written over the first, so the
    two calls leave one entry. *)
Lemma verify_same_name_replaces t1 t1' t2 rq rq' w a a' f f' s d rec :
  wallet rq = Some a → bad_address a = false →
  BlockchainService.mockUsers (chain w) !! a = Some "auditor" →
  file rq = Some f → b_storeId (body rq) = Some s → b_date (body rq) = Some d →
  wallet rq' = Some a' → bad_address a' = false →
  BlockchainService.mockUsers (chain w) !! a' = Some "auditor" →
  file rq' = Some f' → b_storeId (body rq') = Some s → b_date (body rq') = Some d →
  s ≠ "" → d ≠ "" →
  BlockchainService.mockSalesRecords (chain w) !! BlockchainService.key s d = Some rec →
  let first := route "auditor" (verify env join t1 t2) rq w in
  let second := route "auditor" (verify env join t1' t2) rq' first.2 in
  status first.1 = 200%N ∧ status second.1 = 200%N
  ∧ audit_logs second.2
    = <[auditLogPath env join s d t2 :=
          {| auditedBy := a'; al_storeId := s; al_date := d;
             uploadedHash := Sha256.sha256_hex (buffer f');
             storedHash := BlockchainService.hash rec;
             hashMatch := bool_decide (Sha256.sha256_hex (buffer f')
                                       = BlockchainService.hash rec);
             al_filename := originalname f'; fileSize := fsize f';
             al_timestamp := t1'; originalSubmission := rec |}]>
        (audit_logs w)
  ∧ (size (audit_logs second.2) ≤ S (size (audit_logs w)))%nat.
Proof.
  intros Hw Hbad Hrole Hf Hs Hd Hw' Hbad' Hrole' Hf' Hs' Hd' Hne Hne' Hk first second.
  destruct (verify_route_found env join t1 t2 rq w a f s d rec)
    as (Hstatus & _ & Hchain & Hlogs); try done.
  fold first in Hstatus, Hchain, Hlogs.
  destruct (verify_route_found env join t1' t2 rq' first.2 a' f' s d rec)
    as (Hstatus' & _ & _ & Hlogs'); try done; try by rewrite Hchain.
  fold second in Hstatus', Hlogs'.
  split; [done|]. split; [done|].
  rewrite Hlogs', Hlogs, insert_insert_eq. split; [done|].
  destruct (audit_logs w !! auditLogPath env join s d t2) eqn:Hold.
  - erewrite map_size_insert_Some by done. lia.
  - by rewrite map_size_insert_None.
Qed.

(** A grant and a revocation whose file names carry the same reading of the
    clock: both handlers name the file [admin_<now>.json], so the second log
    is written over the first. *)
Lemma admin_log_same_name_replaces t1 t1' t2 rq rq' w a target role :
  wallet rq = Some a → bad_address a = false →
  BlockchainService.mockUsers (chain w) !! a = Some "admin" →
  b_userAddress (body rq) = Some target → b_role (body rq) = Some role →
  valid_role role = true → bad_address target = false → target ≠ a →
  wallet rq' = Some a → b_userAddress (body rq') = Some target →
  let first := route "admin" (add_user env join t1 t2) rq w in
  let second := route "admin" (remove_user env join t1' t2) rq' first.2 in
  json_success (json first.1) = true ∧ json_success (json second.1) = true
  ∧ BlockchainService.mockUsers (chain first.2) !! target = Some role
  ∧ BlockchainService.mockUsers (chain second.2) !! target = None
  ∧ admin_logs first.2
    = <[adminLogPath env join t2 :=
          {| action := "add_user"; adminAddress := a;
             targetAddress := target; log_role := Some role;
             log_timestamp := t1 |}]> (admin_logs w)
  ∧ admin_logs second.2
    = <[adminLogPath env join t2 :=
          {| action := "remove_user"; adminAddress := a;
             targetAddress := target; log_role := None;
             log_timestamp := t1' |}]> (admin_logs w)
  ∧ (size (admin_logs second.2) ≤ S (size (admin_logs w)))%nat.
Proof.
  intros Hw Hbad Hadmin Ht Hr Hvalid Hbadt Hta Hw' Ht' first second.
  assert (target ≠ "") as Hne by (intros ->; by vm_compute in Hbadt).
  assert (role ≠ "") as Hner by (intros ->; by vm_compute in Hvalid).
  assert (first
          = ({| status := 200;
                json := Result (BlockchainService.reply true
                          ("User added to " +:+ role +:+ " role successfully")) |},
             {| chain := {| BlockchainService.mockUsers :=
                              <[target := role]> (BlockchainService.mockUsers (chain w));
                            BlockchainService.mockSalesRecords :=
                              BlockchainService.mockSalesRecords (chain w) |};
                sales_files := sales_files w; metadata := metadata w;
                audit_logs := audit_logs w;
                admin_logs :=
                  <[adminLogPath env join t2 :=
                      {| action := "add_user"; adminAddress := a;
                         targetAddress := target; log_role := Some role;
                         log_timestamp := t1 |}]> (admin_logs w) |})) as Hfirst.
  { subst first. rewrite (route_granted _ _ _ _ a) by done.
    unfold add_user, BlockchainService.addUser, empty_str. cbn [req userAddress].
    rewrite Ht, Hr, Hvalid, Hbadt, Hadmin, !bool_decide_eq_false_2 by done.
    reflexivity. }
  assert (second
          = ({| status := 200;
                json := Result (BlockchainService.reply true "User removed successfully") |},
             {| chain := {| BlockchainService.mockUsers :=
                              delete target
                                (<[target := role]> (BlockchainService.mockUsers (chain w)));
                            BlockchainService.mockSalesRecords :=
                              BlockchainService.mockSalesRecords (chain w) |};
                sales_files := sales_files w; metadata := metadata w;
                audit_logs := audit_logs w;
                admin_logs :=
                  <[adminLogPath env join t2 :=
                      {| action := "remove_user"; adminAddress := a;
                         targetAddress := target; log_role := None;
                         log_timestamp := t1' |}]>
                    (<[adminLogPath env join t2 :=
                         {| action := "add_user"; adminAddress := a;
                            targetAddress := target; log_role := Some role;
                            log_timestamp := t1 |}]> (admin_logs w)) |})) as Hsecond.
  { subst second. rewrite Hfirst. cbn [snd].
    rewrite (route_granted _ _ _ _ a); [|done|done| |done].
    - unfold remove_user, BlockchainService.removeUser, empty_str.
      cbn [req userAddress chain BlockchainService.mockUsers
           BlockchainService.mockSalesRecords sales_files metadata audit_logs
           admin_logs].
      rewrite Ht', lookup_insert_ne, Hadmin by done.
      rewrite bool_decide_eq_false_2 by done.
      rewrite bool_decide_eq_true_2 by (rewrite lookup_insert_eq; done).
      reflexivity.
    - cbn [chain BlockchainService.mockUsers]. by rewrite lookup_insert_ne. }
  rewrite Hsecond, Hfirst. cbn [fst snd json json_success chain admin_logs
    BlockchainService.mockUsers BlockchainService.success BlockchainService.reply].
  rewrite insert_insert_eq, lookup_insert_eq, lookup_delete_eq.
  repeat apply conj; try done.
  destruct (admin_logs w !! adminLogPath env join t2) eqn:Hold.
  - erewrite map_size_insert_Some by done. lia.
  - by rewrite map_size_insert_None.
Qed.

End SameName.

(** C7.  A verification is not always recorded as a new entry.  The cashier
    submits a file for store "S1"; the auditor verifies it with the same file
    and, within the same millisecond, with a file that has one byte changed.
    Both calls are answered 200, the first with a match and the second with a
    mismatch, and both name their log [audit_S1_2024-01-01_21.json]: the
    second log is written over the first, so after two verifications the
    trail holds one entry and the match of the first is gone. *)
Theorem verifications_in_one_millisecond_leave_one_log :
  ∀ env join,
    let w0 := (Backend.route "cashier" (Backend.submit_sales env join 10 11)
                 (sales_request BlockchainService.mock_cashier "S1" "2024-01-01")
                 uploaded).2 in
    let first := Backend.route "auditor" (Backend.verify env join 21 21)
                   (sales_request BlockchainService.mock_auditor "S1" "2024-01-01") w0 in
    let second := Backend.route "auditor" (Backend.verify env join 21 21)
                    (audit_request BlockchainService.mock_auditor "S1" "2024-01-01"
                       altered) first.2 in
    let name := Backend.auditLogPath env join "S1" "2024-01-01" 21 in
    Backend.audit_logs w0 = ∅
    ∧ Backend.status first.1 = 200%N
    ∧ (∃ log, Backend.audit_logs first.2 = {[ name := log ]}
              ∧ Backend.hashMatch log = true)
    ∧ Backend.status second.1 = 200%N
    ∧ Backend.json_success (Backend.json second.1) = true
    ∧ (∃ log, Backend.audit_logs second.2 = {[ name := log ]}
              ∧ Backend.hashMatch log = false)
    ∧ size (Backend.audit_logs second.2) = 1%nat.
Proof.
  intros env join w0 first second name.
  destruct (submit_route_stored env join 10 11
              (sales_request BlockchainService.mock_cashier "S1" "2024-01-01") uploaded
              BlockchainService.mock_cashier upload "S1" "2024-01-01"
              (Backend.buffer upload))
    as (_ & Husers & Hrecords & Hlogs); [compute_done..|].
  fold w0 in Husers, Hrecords, Hlogs.
  assert (Backend.audit_logs w0 = ∅) as Hempty by (rewrite Hlogs; reflexivity).
  destruct (verify_route_found env join 21 21
              (sales_request BlockchainService.mock_auditor "S1" "2024-01-01") w0
              BlockchainService.mock_auditor upload "S1" "2024-01-01" first_record)
    as (Hstatus & _ & Hchain & Hfirst);
    [compute_done|compute_done|rewrite Husers; compute_done|compute_done..
    |rewrite Hrecords; apply lookup_insert_eq|].
  fold first in Hstatus, Hchain, Hfirst.
  destruct (verify_route_found env join 21 21
              (audit_request BlockchainService.mock_auditor "S1" "2024-01-01" altered)
              first.2 BlockchainService.mock_auditor altered "S1" "2024-01-01"
              first_record)
    as (Hstatus' & Hsuccess' & _ & Hsecond);
    [compute_done|compute_done|rewrite Hchain, Husers; compute_done|compute_done..
    |rewrite Hchain, Hrecords; apply lookup_insert_eq|].
  fold second in Hstatus', Hsuccess', Hsecond.
  split; [exact Hempty|]. split; [exact Hstatus|].
  split.
  { eexists. rewrite Hfirst, Hempty, insert_empty. split; [reflexivity|].
    cbn [Backend.hashMatch]. by apply bool_decide_eq_true. }
  split; [exact Hstatus'|]. split; [exact Hsuccess'|].
  assert (Sha256.sha256_hex (Backend.buffer altered)
          ≠ BlockchainService.hash first_record) as Hdiffer.
  { vm_compute. discriminate. }
  split.
  { eexists. rewrite Hsecond, Hfirst, Hempty, insert_insert_eq, insert_empty.
    split; [reflexivity|]. cbn [Backend.hashMatch].
    by apply bool_decide_eq_false. }
  rewrite Hsecond, Hfirst, Hempty, insert_insert_eq, insert_empty.
  apply map_size_singleton.
Qed.

(** C8.  A successful admin call is not always followed by a new entry of
    the admin log.  The seeded admin grants the auditor role to an address
    and, within the same millisecond, revokes it.  Both calls succeed and
    both handlers name their log [admin_30.json]: the log of the revocation is
    written over the log of the grant, so after two successful calls the admin
    log holds one entry and the grant is in no log. *)
Theorem admin_actions_in_one_millisecond_leave_one_log :
  ∀ env join,
    let first := Backend.route "admin" (Backend.add_user env join 30 30)
                   (grant_request deployer stranger "auditor") started in
    let second := Backend.route "admin" (Backend.remove_user env join 30 30)
                    (remove_request deployer stranger) first.2 in
    let name := Backend.adminLogPath env join 30 in
    Backend.admin_logs started = ∅
    ∧ Backend.json_success (Backend.json first.1) = true
    ∧ BlockchainService.mockUsers (Backend.chain first.2) !! stranger = Some "auditor"
    ∧ (∃ log, Backend.admin_logs first.2 = {[ name := log ]}
              ∧ Backend.action log = "add_user")
    ∧ Backend.json_success (Backend.json second.1) = true
    ∧ BlockchainService.mockUsers (Backend.chain second.2) !! stranger = None
    ∧ (∃ log, Backend.admin_logs second.2 = {[ name := log ]}
              ∧ Backend.action log = "remove_user")
    ∧ size (Backend.admin_logs second.2) = 1%nat.
Proof.
  intros env join first second name.
  destruct (admin_log_same_name_replaces env join 30 30 30
              (grant_request deployer stranger "auditor")
              (remove_request deployer stranger) started deployer stranger "auditor")
    as (Hok & Hok' & Hgranted & Hrevoked & Hfirst & Hsecond & _);
    [compute_done..|].
  fold first in Hok, Hok', Hgranted, Hrevoked, Hfirst, Hsecond.
  fold second in Hok', Hrevoked, Hsecond.
  split; [reflexivity|]. split; [exact Hok|]. split; [exact Hgranted|].
  split.
  { eexists. rewrite Hfirst. change (Backend.admin_logs started) with
      (∅ : gmap string Backend.AdminLog). rewrite insert_empty. done. }
  split; [exact Hok'|]. split; [exact Hrevoked|].
  assert (Backend.admin_logs second.2
          = {[ name := {| Backend.action := "remove_user";
                          Backend.adminAddress := deployer;
                          Backend.targetAddress := stranger;
                          Backend.log_role := None;
                          Backend.log_timestamp := 30 |} ]}) as ->.
  { rewrite Hsecond. change (Backend.admin_logs started) with
      (∅ : gmap string Backend.AdminLog). by rewrite insert_empty. }
  split; [by eexists|]. apply map_size_singleton.
Qed.

(** ** The theorems at work *)

(** [first_write_wins] on the seeded service: the mock cashier submits, the
    admin grants a role, the cashier submits another digest for the same key. *)
Lemma first_write_wins_witness :
  (BlockchainService.submitSalesHash 2 "S1" "2024-01-01" "bb"
     BlockchainService.mock_cashier
     (ServiceTrace.run
        [ServiceTrace.AddUser stranger "auditor" BlockchainService.default_admin]
        (BlockchainService.submitSalesHash 1 "S1" "2024-01-01" "aa"
           BlockchainService.mock_cashier BlockchainService.initial).2)).1
  = BlockchainService.reply false "Sales record already exists for this date".
Proof.
  refine (proj2 (proj2 (proj2
            (proj2 (proj1 first_write_wins 1%N "S1" "2024-01-01" "aa"
                      BlockchainService.mock_cashier BlockchainService.initial _)
               [ServiceTrace.AddUser stranger "auditor" BlockchainService.default_admin]
               2%N "bb" BlockchainService.mock_cashier))) _);
    vm_compute; reflexivity.
Defined.


(** * Further properties of the code *)

(** ** The key of a sales record *)

Lemma app_colon_inj s : ∀ s' t t',
  no_colon s → no_colon s' →
  s +:+ String ":" t = s' +:+ String ":" t' → s = s' ∧ t = t'.
Proof.
  unfold no_colon.
  induction s as [|c s IH]; intros [|c' s'] t t' Hs Hs' Heq; cbn in *.
  - by injection Heq as ->.
  - injection Heq as <- _. by apply Forall_cons in Hs' as [? _].
  - injection Heq as -> _. by apply Forall_cons in Hs as [? _].
  - injection Heq as -> Heq.
    apply Forall_cons in Hs as [_ Hs]. apply Forall_cons in Hs' as [_ Hs'].
    destruct (IH s' t t' Hs Hs' Heq) as [-> ->]. done.
Qed.

Lemma key_no_colon_inj s s' d d' :
  no_colon s → no_colon s' →
  BlockchainService.key s d = BlockchainService.key s' d' → s = s' ∧ d = d'.
Proof. apply app_colon_inj. Qed.

Lemma string_app_assoc (a b c : string) : (a +:+ b) +:+ c = a +:+ (b +:+ c).
Proof.
  induction a as [|x a IH]; [done|].
  change (String x ((a +:+ b) +:+ c) = String x (a +:+ (b +:+ c))). by f_equal.
Qed.

(** X1.  The key [`${storeId}:${date}`] tells two pairs apart whenever the
    store ids have no colon; with a colon in the store id it does not: moving
    a colon-separated piece from the store id to the date gives the same key.
    The module builds its key the same way. *)
Theorem key_injective_without_colon :
  (∀ s s' d d',
     no_colon s → no_colon s' →
     BlockchainService.key s d = BlockchainService.key s' d' → s = s' ∧ d = d')
  ∧ (∀ s x d,
       BlockchainService.key (s +:+ ":" +:+ x) d
       = BlockchainService.key s (x +:+ ":" +:+ d))
  ∧ (∀ s d, SecurePOSModule.key s d = BlockchainService.key s d).
Proof.
  repeat apply conj.
  - intros s s' d d'. apply key_no_colon_inj.
  - intros s x d. unfold BlockchainService.key.
    by rewrite !string_app_assoc.
  - done.
Qed.

(** ** The books of the module *)

Section ModuleBooks.
Import SecurePOSModule ModuleTrace.

Lemma removeUser_cases u a st :
  (hasRoleInternal a "admin" st = false
   ∧ removeUser u a st = (reply false "Unauthorized: Admin role required", st))
  ∨ (hasRoleInternal a "admin" st = true ∧ u = a ∧ size (adminAddresses st) = 1
     ∧ removeUser u a st = (reply false "Cannot remove the last admin", st))
  ∨ (hasRoleInternal a "admin" st = true
     ∧ ¬ (u = a ∧ size (adminAddresses st) = 1)
     ∧ userRoles st !! u = None
     ∧ removeUser u a st = (reply false "User not found", st))
  ∨ (∃ entry,
       hasRoleInternal a "admin" st = true
       ∧ ¬ (u = a ∧ size (adminAddresses st) = 1)
       ∧ userRoles st !! u = Some entry
       ∧ removeUser u a st
         = (reply true "User removed successfully",
            {| salesRecords := salesRecords st;
               userRoles := delete u (userRoles st);
               adminAddresses :=
                 if str_eq (role entry) "admin" then adminAddresses st ∖ {[u]}
                 else adminAddresses st |})).
Proof.
  unfold removeUser, str_eq.
  destruct (hasRoleInternal a "admin" st); simpl; [right|left; done].
  destruct (decide (u = a)) as [->|Hne].
  - rewrite (bool_decide_eq_true_2 (a = a)) by done. simpl.
    case_bool_decide as Hsize; [left; done|right].
    destruct (userRoles st !! a) as [entry|] eqn:Hentry.
    + right. exists entry. repeat split; try done. by intros [_ ?].
    + left. repeat split; try done. by intros [_ ?].
  - rewrite (bool_decide_eq_false_2 (u = a)) by done. simpl. right.
    destruct (userRoles st !! u) as [entry|] eqn:Hentry.
    + right. exists entry. repeat split; try done. by intros [? _].
    + left. repeat split; try done. by intros [? _].
Qed.

Lemma addUser_cases now u r a st :
  (hasRoleInternal a "admin" st = false
   ∧ addUser now u r a st = (reply false "Unauthorized: Admin role required", st))
  ∨ (hasRoleInternal a "admin" st = true ∧ valid_role r = false
     ∧ addUser now u r a st = (reply false "Invalid role specified", st))
  ∨ (hasRoleInternal a "admin" st = true ∧ valid_role r = true
     ∧ addUser now u r a st
       = (reply true ("User added to " +:+ r +:+ " role successfully"),
          {| salesRecords := salesRecords st;
             userRoles :=
               <[u := {| address := u; role := r; addedBy := a; granted := now |}]>
                 (userRoles st);
             adminAddresses :=
               if str_eq r "admin" then {[u]} ∪ adminAddresses st
               else adminAddresses st |})).
Proof.
  unfold addUser.
  destruct (hasRoleInternal a "admin" st); simpl; [right|left; done].
  destruct (valid_role r); simpl; [right|left]; done.
Qed.

Lemma submit_keeps_users now s d h a st :
  userRoles (submitSalesHash now s d h a st).2 = userRoles st
  ∧ adminAddresses (submitSalesHash now s d h a st).2 = adminAddresses st.
Proof.
  destruct (module_submit_cases now s d h a st)
    as [[_ ->]|[(_ & _ & ->)|[(_ & _ & _ & _ & _ & ->)|(_ & _ & _ & _ & _ & ->)]]];
    done.
Qed.

Lemma exec_well_kept c st : well_kept st → well_kept (exec c st).2.
Proof.
  intros [Hsub Hentries]. destruct c as [now s d h a|now u r a|u a]; simpl.
  - destruct (submit_keeps_users now s d h a st) as [Hu Ha].
    unfold well_kept, admins. rewrite Hu, Ha. done.
  - destruct (addUser_cases now u r a st)
      as [[_ ->]|[(_ & _ & ->)|(_ & Hvalid & ->)]]; [done..|].
    split; simpl.
    + intros x Hx. apply elem_of_admins in Hx. simpl in Hx.
      destruct (decide (x = u)) as [->|Hne].
      * rewrite lookup_insert_eq in Hx. simpl in Hx. injection Hx as ->.
        unfold str_eq. rewrite bool_decide_eq_true_2 by done.
        by apply elem_of_union_l, elem_of_singleton.
      * rewrite lookup_insert_ne in Hx by done.
        apply elem_of_admins, Hsub in Hx.
        destruct (str_eq r "admin"); [by apply elem_of_union_r|done].
    + intros x entry. destruct (decide (x = u)) as [->|Hne].
      * rewrite lookup_insert_eq. by intros [= <-].
      * rewrite lookup_insert_ne by done. apply Hentries.
  - destruct (removeUser_cases u a st)
      as [[_ ->]|[(_ & _ & _ & ->)|[(_ & _ & _ & ->)|(entry & _ & _ & _ & ->)]]];
      [done..|].
    split; simpl.
    + intros x Hx. apply elem_of_admins in Hx. simpl in Hx.
      destruct (decide (x = u)) as [->|Hne].
      * by rewrite lookup_delete_eq in Hx.
      * rewrite lookup_delete_ne in Hx by done.
        apply elem_of_admins, Hsub in Hx.
        destruct (str_eq _ _); [|done].
        apply elem_of_difference. by rewrite elem_of_singleton.
    + intros x e. destruct (decide (x = u)) as [->|Hne].
      * by rewrite lookup_delete_eq.
      * rewrite lookup_delete_ne by done. apply Hentries.
Qed.

Lemma init_well_kept now deployerAddress : well_kept (init now deployerAddress created).
Proof.
  assert (well_kept created) as Hcreated.
  { split; [|done]. intros x Hx. apply elem_of_admins in Hx. done. }
  unfold init. destruct deployerAddress as [d|]; [|done].
  destruct (empty_str d); [done|]. split; simpl.
  - intros x Hx. apply elem_of_admins in Hx. simpl in Hx.
    destruct (decide (x = d)) as [->|Hne]; [set_solver|].
    by rewrite lookup_insert_ne in Hx.
  - intros x e. destruct (decide (x = d)) as [->|Hne].
    + rewrite lookup_insert_eq. by intros [= <-].
    + by rewrite lookup_insert_ne.
Qed.

End ModuleBooks.

Section ModuleInvariants.
Import SecurePOSModule ModuleTrace.
#[local] Set Warnings "-clear-no-such-hyp".

Lemma run_well_kept cs : ∀ st, well_kept st → well_kept (run cs st).
Proof.
  induction cs as [|c cs IH]; intros st Hst; [done|].
  simpl. by apply IH, exec_well_kept.
Qed.

Lemma hasRoleInternal_admins a st :
  hasRoleInternal a "admin" st = true ↔ a ∈ admins st.
Proof. rewrite elem_of_admins. apply opt_is_true. Qed.

Lemma no_users_exec c :
  success (exec c created).1 = false ∧ (exec c created).2 = created.
Proof. by destruct c. Qed.

Lemma no_users_run cs : run cs created = created.
Proof.
  induction cs as [|c cs IH]; [done|].
  simpl. by rewrite (proj2 (no_users_exec c)).
Qed.

(** One step keeps [adminAddresses] equal to the set of admins, unless the
    step is a grant that demotes an admin. *)
Lemma exec_consistent c st :
  consistent st →
  (∀ now u r a, c = AddUser now u r a → r = "admin" ∨ u ∉ admins st) →
  consistent (exec c st).2.
Proof.
  unfold consistent. intros Hcons Hgrant.
  destruct c as [now s d h a|now u r a|u a]; simpl.
  - destruct (submit_keeps_users now s d h a st) as [Hu Ha].
    unfold admins. by rewrite Hu, Ha.
  - destruct (addUser_cases now u r a st)
      as [[_ ->]|[(_ & _ & ->)|(_ & Hvalid & ->)]]; [done..|].
    simpl. apply set_eq. intros x. rewrite elem_of_admins. simpl.
    destruct (decide (x = u)) as [->|Hne].
    + rewrite lookup_insert_eq. simpl.
      destruct (Hgrant now u r a eq_refl) as [->|Hnot].
      * unfold str_eq. rewrite bool_decide_eq_true_2 by done. set_solver.
      * unfold str_eq. case_bool_decide as Hr; [subst r; set_solver|].
        rewrite Hcons. split; [done|]. intros [= ?]. done.
    + rewrite lookup_insert_ne by done. rewrite <- elem_of_admins, <- Hcons.
      destruct (str_eq r "admin"); set_solver.
  - destruct (removeUser_cases u a st)
      as [[_ ->]|[(_ & _ & _ & ->)|[(_ & _ & _ & ->)|(entry & _ & _ & Hentry & ->)]]];
      [done..|].
    simpl. apply set_eq. intros x. rewrite elem_of_admins. simpl.
    destruct (decide (x = u)) as [->|Hne].
    + rewrite lookup_delete_eq. destruct (str_eq _ _) eqn:Hrole.
      * set_solver.
      * rewrite Hcons, elem_of_admins, Hentry. simpl. split; [|done].
        intros [= Hadmin]. apply str_eq_true in Hadmin. congruence.
    + rewrite lookup_delete_ne by done. rewrite <- elem_of_admins, <- Hcons.
      destruct (str_eq _ _); set_solver.
Qed.

End ModuleInvariants.

(** X2.  Whatever calls the module receives after [init], every address whose
    role is admin is in [adminAddresses], and every entry of [userRoles] is
    filed under its own address with a role of the closed set. *)
Theorem module_books_well_kept :
  ∀ now deployerAddress cs,
    well_kept (ModuleTrace.run cs
                 (SecurePOSModule.init now deployerAddress SecurePOSModule.created)).
Proof. intros now d cs. apply run_well_kept, init_well_kept. Qed.

(** X3.  The guard of [removeUser] never speaks without cause: in a module
    that ran from [init], the answer "Cannot remove the last admin" is given
    only to a sender that removes itself and is the one address whose role is
    admin. *)
Theorem last_admin_guard_sound :
  ∀ now deployerAddress cs u a,
    let st := ModuleTrace.run cs
                (SecurePOSModule.init now deployerAddress SecurePOSModule.created) in
    (SecurePOSModule.removeUser u a st).1
    = SecurePOSModule.reply false "Cannot remove the last admin" →
    u = a ∧ ModuleTrace.admins st = {[a]}
    ∧ (SecurePOSModule.removeUser u a st).2 = st.
Proof.
  intros now d cs u a st Hmsg.
  pose proof (run_well_kept cs _ (init_well_kept now d)) as [Hsub _]. fold st in Hsub.
  destruct (removeUser_cases u a st)
    as [[_ Heq]|[(Hadmin & -> & Hsize & Heq)|[(_ & _ & _ & Heq)|(e & _ & _ & _ & Heq)]]];
    rewrite Heq in Hmsg |- *; try discriminate Hmsg.
  split; [done|]. split; [|done].
  apply hasRoleInternal_admins in Hadmin.
  apply size_1_elem_of in Hsize as [x Hx].
  assert (∀ y, y ∈ ModuleTrace.admins st → y = x) as Hone.
  { intros y Hy. apply Hsub, Hx in Hy. by apply elem_of_singleton in Hy. }
  apply set_eq. intros y. rewrite elem_of_singleton. split.
  - intros Hy. by rewrite (Hone y), (Hone a).
  - by intros ->.
Qed.

(** X4.  A module whose genesis configuration names no deployer never gets a
    user: every call is refused and the state stays the empty one. *)
Theorem module_without_deployer_stays_empty :
  ∀ now deployerAddress cs c,
    deployerAddress = None ∨ deployerAddress = Some "" →
    let st := ModuleTrace.run cs
                (SecurePOSModule.init now deployerAddress SecurePOSModule.created) in
    st = SecurePOSModule.created
    ∧ SecurePOSModule.success (ModuleTrace.exec c st).1 = false
    ∧ (ModuleTrace.exec c st).2 = st.
Proof.
  intros now d cs c Hd st.
  assert (st = SecurePOSModule.created) as ->.
  { subst st. destruct Hd as [->| ->]; simpl; apply no_users_run. }
  split; [done|]. apply no_users_exec.
Qed.

Lemma run_consistent cs : ∀ st,
  ModuleTrace.consistent st → no_demotion cs st →
  ModuleTrace.consistent (ModuleTrace.run cs st).
Proof.
  induction cs as [|c cs IH]; intros st Hcons Hno; [done|].
  destruct Hno as [Hc Hrest]. simpl. apply IH; [|done].
  apply exec_consistent; [done|]. by intros now u r a ->.
Qed.

Lemma init_consistent now deployerAddress :
  ModuleTrace.consistent
    (SecurePOSModule.init now deployerAddress SecurePOSModule.created).
Proof.
  unfold ModuleTrace.consistent, SecurePOSModule.init.
  assert (ModuleTrace.admins SecurePOSModule.created = ∅) as Hempty.
  { apply set_eq. intros x. rewrite elem_of_admins. done. }
  destruct deployerAddress as [d|]; [|done].
  destruct (empty_str d); [done|]. simpl.
  apply set_eq. intros x. rewrite elem_of_admins. simpl.
  rewrite elem_of_union, elem_of_singleton, elem_of_empty.
  destruct (decide (x = d)) as [->|Hne].
  - rewrite lookup_insert_eq. simpl. tauto.
  - rewrite lookup_insert_ne, lookup_empty by done. simpl.
    split; [by intros [?|[]]|done].
Qed.

(** X5.  [adminAddresses] is exactly the set of admins after [init] and stays
    so along every history in which no grant gives a role other than admin to
    an address that is admin at that moment. *)
Theorem adminAddresses_exact_without_demotion :
  ∀ now deployerAddress cs,
    let st := SecurePOSModule.init now deployerAddress SecurePOSModule.created in
    no_demotion cs st →
    SecurePOSModule.adminAddresses (ModuleTrace.run cs st)
    = ModuleTrace.admins (ModuleTrace.run cs st).
Proof.
  intros now d cs st Hno. apply run_consistent; [|done]. apply init_consistent.
Qed.

(** ** Revoking a role *)

Lemma service_removeUser_cases u a st :
  (BlockchainService.mockUsers st !! a ≠ Some "admin"
   ∧ BlockchainService.removeUser u a st
     = (BlockchainService.reply false "Unauthorized: Admin role required", st))
  ∨ (BlockchainService.mockUsers st !! a = Some "admin"
     ∧ BlockchainService.mockUsers st !! u = None
     ∧ BlockchainService.removeUser u a st
       = (BlockchainService.reply false "User not found", st))
  ∨ (BlockchainService.mockUsers st !! a = Some "admin"
     ∧ is_Some (BlockchainService.mockUsers st !! u)
     ∧ BlockchainService.removeUser u a st
       = (BlockchainService.reply true "User removed successfully",
          {| BlockchainService.mockUsers := delete u (BlockchainService.mockUsers st);
             BlockchainService.mockSalesRecords :=
               BlockchainService.mockSalesRecords st |})).
Proof.
  unfold BlockchainService.removeUser.
  destruct (opt_is _ _) eqn:Hadmin; simpl.
  - apply opt_is_true in Hadmin. right.
    case_bool_decide as Hu; [right; done|left].
    split; [done|]. split; [|done]. by apply eq_None_not_Some.
  - apply opt_is_false in Hadmin. left. done.
Qed.

(** X6.  [removeUser] of the service succeeds exactly when the sender is admin
    and the target has a role; it then deletes the target's entry and nothing
    else, so the target has no role after it.  A refused call changes nothing,
    and an unknown target is answered "User not found", not a silent success. *)
Theorem service_revoke_removes_role :
  ∀ u a st,
    let out := BlockchainService.removeUser u a st in
    (BlockchainService.success out.1 = true
     ↔ BlockchainService.mockUsers st !! a = Some "admin"
       ∧ is_Some (BlockchainService.mockUsers st !! u))
    ∧ (BlockchainService.success out.1 = true →
       BlockchainService.mockUsers out.2 = delete u (BlockchainService.mockUsers st)
       ∧ BlockchainService.mockSalesRecords out.2 = BlockchainService.mockSalesRecords st
       ∧ ∀ r, BlockchainService.hasRole u r out.2
              = {| BlockchainService.success := true;
                   BlockchainService.message := "Role check completed";
                   BlockchainService.data := None;
                   BlockchainService.has_role := Some false;
                   BlockchainService.role := None |})
    ∧ (BlockchainService.success out.1 = false → out.2 = st)
    ∧ (BlockchainService.mockUsers st !! a = Some "admin" →
       BlockchainService.mockUsers st !! u = None →
       out.1 = BlockchainService.reply false "User not found").
Proof.
  intros u a st out. subst out.
  destruct (service_removeUser_cases u a st)
    as [[Hno ->]|[(Hadmin & Hu & ->)|(Hadmin & Hu & ->)]]; simpl.
  - repeat split; try done. by intros [? _].
  - repeat split; try done. intros [_ [? ?]]. congruence.
  - repeat split; try done.
    + intros r. unfold BlockchainService.hasRole. simpl.
      by rewrite lookup_delete_eq.
    + intros _ Hnone. destruct Hu as [? ?]. congruence.
Qed.

(** X7.  In the module a successful [removeUser] deletes the target's entry
    and takes the target out of [adminAddresses] when its role was admin, so
    the target has no role after it; a refused call, for the sender's role,
    the last-admin guard or an unknown target, changes nothing. *)
Theorem module_revoke_removes_role :
  ∀ u a st,
    let out := SecurePOSModule.removeUser u a st in
    (SecurePOSModule.success out.1 = true
     ↔ SecurePOSModule.hasRoleInternal a "admin" st = true
       ∧ ¬ (u = a ∧ size (SecurePOSModule.adminAddresses st) = 1)
       ∧ is_Some (SecurePOSModule.userRoles st !! u))
    ∧ (SecurePOSModule.success out.1 = true →
       SecurePOSModule.userRoles out.2 = delete u (SecurePOSModule.userRoles st)
       ∧ SecurePOSModule.salesRecords out.2 = SecurePOSModule.salesRecords st
       ∧ (∀ r, SecurePOSModule.hasRoleInternal u r out.2 = false)
       ∧ (u ∈ ModuleTrace.admins st →
          SecurePOSModule.adminAddresses out.2
          = SecurePOSModule.adminAddresses st ∖ {[u]})
       ∧ (u ∉ ModuleTrace.admins st →
          SecurePOSModule.adminAddresses out.2 = SecurePOSModule.adminAddresses st))
    ∧ (SecurePOSModule.success out.1 = false → out.2 = st).
Proof.
  intros u a st out. subst out.
  destruct (removeUser_cases u a st)
    as [[Hno ->]|[(Hadmin & -> & Hsize & ->)
       |[(Hadmin & Hguard & Hu & ->)|(entry & Hadmin & Hguard & Hu & ->)]]]; simpl.
  - repeat split; try done. intros (? & _). congruence.
  - repeat split; try done. intros (_ & Hguard & _). by destruct Hguard.
  - repeat split; try done. intros (_ & _ & [? ?]). congruence.
  - repeat split; try done.
    + intros r. unfold SecurePOSModule.hasRoleInternal. simpl.
      rewrite lookup_delete_eq. by apply opt_is_false.
    + intros Hin. apply elem_of_admins in Hin. rewrite Hu in Hin.
      injection Hin as ->. reflexivity.
    + intros Hnot. destruct (str_eq _ _) eqn:Hrole; [|done].
      apply str_eq_true in Hrole. exfalso. apply Hnot, elem_of_admins.
      by rewrite Hu; simpl; rewrite Hrole.
Qed.

(** X8.  Grant and revoke undo each other: when an admin grants a role to an
    address that has none and then removes it, both calls succeed and the
    state is the one before the grant, in the service and, for an address
    that is not in [adminAddresses], in the module. *)
Theorem grant_then_revoke_restores :
  (∀ u r a st,
     BlockchainService.mockUsers st !! a = Some "admin" →
     BlockchainService.mockUsers st !! u = None →
     let granted := BlockchainService.addUser u r a st in
     let revoked := BlockchainService.removeUser u a granted.2 in
     BlockchainService.success granted.1 = true
     ∧ BlockchainService.success revoked.1 = true
     ∧ revoked.2 = st)
  ∧ (∀ now u r a st,
       SecurePOSModule.hasRoleInternal a "admin" st = true →
       valid_role r = true →
       SecurePOSModule.userRoles st !! u = None →
       u ∉ SecurePOSModule.adminAddresses st →
       let granted := SecurePOSModule.addUser now u r a st in
       let revoked := SecurePOSModule.removeUser u a granted.2 in
       SecurePOSModule.success granted.1 = true
       ∧ SecurePOSModule.success revoked.1 = true
       ∧ revoked.2 = st).
Proof.
  split.
  - intros u r a st Hadmin Hu granted revoked. subst granted revoked.
    assert (a ≠ u) as Hne by congruence.
    unfold BlockchainService.addUser, BlockchainService.removeUser.
    rewrite Hadmin. simpl. rewrite lookup_insert_ne, Hadmin by done. simpl.
    rewrite lookup_insert_eq, bool_decide_eq_true_2 by done. simpl.
    repeat split. rewrite delete_insert_id by done. by destruct st.
  - intros now u r a st Hadmin Hvalid Hu Hnot granted revoked.
    subst granted revoked.
    assert (a ≠ u) as Hne.
    { intros ->. apply opt_is_true in Hadmin. by rewrite Hu in Hadmin. }
    rewrite addUser_granted by done. simpl.
    unfold SecurePOSModule.removeUser, SecurePOSModule.hasRoleInternal in *. simpl.
    rewrite lookup_insert_ne, Hadmin by done. simpl.
    assert (str_eq u a = false) as -> by (by apply bool_decide_eq_false_2).
    simpl. rewrite lookup_insert_eq. simpl. repeat split.
    rewrite delete_insert_id by done.
    destruct st as [sr ur aa]. simpl in *. f_equal.
    destruct (str_eq r "admin"); [|done].
    apply set_eq. intros x. rewrite elem_of_difference, elem_of_union, elem_of_singleton.
    split; [by intros [[?|?] ?]|]. intros Hx. split; [by right|]. by intros ->.
Qed.

(** ** Reading the ledger *)

(** X9.  [getSalesHash] gives back what was submitted: after a successful
    [submitSalesHash], and after any further calls, it answers with the record
    of that submission, digest, time and sender as submitted.  For a key
    string without a record it answers with a failure and no data, and the
    module refuses an empty store id or date before it looks. *)
Theorem lookup_returns_submission :
  (∀ now s d h a st cs,
     BlockchainService.success (BlockchainService.submitSalesHash now s d h a st).1 = true →
     BlockchainService.getSalesHash s d
       (ServiceTrace.run cs (BlockchainService.submitSalesHash now s d h a st).2)
     = {| BlockchainService.success := true;
          BlockchainService.message := "Record found";
          BlockchainService.data :=
            Some (BlockchainService.DataRecord
                    {| BlockchainService.storeId := s; BlockchainService.date := d;
                       BlockchainService.hash := h; BlockchainService.timestamp := now;
                       BlockchainService.submittedBy := a |});
          BlockchainService.has_role := None; BlockchainService.role := None |})
  ∧ (∀ s d st,
       BlockchainService.mockSalesRecords st !! BlockchainService.key s d = None →
       BlockchainService.getSalesHash s d st
       = BlockchainService.reply false "No sales record found")
  ∧ (∀ now s d h a st cs,
       SecurePOSModule.success (SecurePOSModule.submitSalesHash now s d h a st).1 = true →
       SecurePOSModule.getSalesHash s d
         (ModuleTrace.run cs (SecurePOSModule.submitSalesHash now s d h a st).2)
       = {| SecurePOSModule.success := true;
            SecurePOSModule.message := "Sales record retrieved successfully";
            SecurePOSModule.data :=
              Some {| SecurePOSModule.storeId := s; SecurePOSModule.date := d;
                      SecurePOSModule.hash := h; SecurePOSModule.timestamp := now;
                      SecurePOSModule.submittedBy := a |} |})
  ∧ (∀ s d st,
       s ≠ "" → d ≠ "" →
       SecurePOSModule.salesRecords st !! SecurePOSModule.key s d = None →
       SecurePOSModule.getSalesHash s d st
       = SecurePOSModule.reply false
           "No sales record found for the specified store and date")
  ∧ (∀ s d st,
       s = "" ∨ d = "" →
       SecurePOSModule.getSalesHash s d st
       = SecurePOSModule.reply false "Missing required parameters").
Proof.
  repeat apply conj.
  - intros now s d h a st cs Hok.
    destruct (service_first_write_wins now s d h a st Hok) as [Hfirst _].
    unfold BlockchainService.getSalesHash.
    by rewrite (run_keeps_record cs _ _ _ Hfirst).
  - intros s d st Hnone. unfold BlockchainService.getSalesHash. by rewrite Hnone.
  - intros now s d h a st cs Hok.
    destruct (module_first_write_wins now s d h a st Hok) as [Hfirst _].
    assert (s ≠ "" ∧ d ≠ "") as [Hs Hd].
    { destruct (module_submit_cases now s d h a st)
        as [[_ Heq]|[(_ & _ & Heq)|[(_ & _ & _ & _ & _ & Heq)|(_ & ? & ? & _)]]];
        try done; rewrite Heq in Hok; discriminate Hok. }
    unfold SecurePOSModule.getSalesHash, empty_str.
    rewrite !bool_decide_eq_false_2 by done. simpl.
    by rewrite (module_run_keeps_record cs _ _ _ Hfirst).
  - intros s d st Hs Hd Hnone. unfold SecurePOSModule.getSalesHash, empty_str.
    rewrite !bool_decide_eq_false_2 by done. simpl. by rewrite Hnone.
  - intros s d st Hempty. unfold SecurePOSModule.getSalesHash, empty_str.
    destruct Hempty as [-> | ->]; [done|].
    by rewrite orb_true_r.
Qed.

(** X10.  [getAllSalesRecords] is for admins only: any other sender gets the
    failure and no data.  An admin gets one entry for every stored record,
    whoever submitted it, and nothing else. *)
Theorem all_records_for_admin_only :
  (∀ a st,
     BlockchainService.mockUsers st !! a ≠ Some "admin" →
     BlockchainService.getAllSalesRecords a st
     = BlockchainService.reply false "Unauthorized: Admin role required")
  ∧ (∀ a st,
       BlockchainService.mockUsers st !! a = Some "admin" →
       ∃ rs,
         BlockchainService.getAllSalesRecords a st
         = {| BlockchainService.success := true;
              BlockchainService.message := "Records retrieved";
              BlockchainService.data := Some (BlockchainService.DataRecords rs);
              BlockchainService.has_role := None; BlockchainService.role := None |}
         ∧ length rs = size (BlockchainService.mockSalesRecords st)
         ∧ ∀ rec, rec ∈ rs
                  ↔ ∃ k, BlockchainService.mockSalesRecords st !! k = Some rec)
  ∧ (∀ a st,
       SecurePOSModule.hasRoleInternal a "admin" st = false →
       SecurePOSModule.getAllSalesRecords a st
       = (SecurePOSModule.reply false "Unauthorized: Admin role required", None))
  ∧ (∀ a st,
       SecurePOSModule.hasRoleInternal a "admin" st = true →
       ∃ rs,
         SecurePOSModule.getAllSalesRecords a st
         = (SecurePOSModule.reply true "Sales records retrieved successfully", Some rs)
         ∧ length rs = size (SecurePOSModule.salesRecords st)
         ∧ ∀ rec, rec ∈ rs ↔ ∃ k, SecurePOSModule.salesRecords st !! k = Some rec).
Proof.
  repeat apply conj.
  - intros a st Hno. unfold BlockchainService.getAllSalesRecords.
    apply opt_is_false in Hno. by rewrite Hno.
  - intros a st Hadmin. unfold BlockchainService.getAllSalesRecords.
    rewrite Hadmin. simpl. eexists. split; [reflexivity|]. split.
    + by rewrite length_fmap, length_map_to_list.
    + intros rec. rewrite list_elem_of_fmap. split.
      * intros ([k r] & -> & Hin). exists k. by apply elem_of_map_to_list.
      * intros [k Hk]. exists (k, rec). split; [done|]. by apply elem_of_map_to_list.
  - intros a st Hno. unfold SecurePOSModule.getAllSalesRecords. by rewrite Hno.
  - intros a st Hadmin. unfold SecurePOSModule.getAllSalesRecords.
    rewrite Hadmin. simpl. eexists. split; [reflexivity|]. split.
    + by rewrite length_fmap, length_map_to_list.
    + intros rec. rewrite list_elem_of_fmap. split.
      * intros ([k r] & -> & Hin). exists k. by apply elem_of_map_to_list.
      * intros [k Hk]. exists (k, rec). split; [done|]. by apply elem_of_map_to_list.
Qed.

(** ** What the writing routes do to the backend *)

Section Effects.
Import Backend.
Variable env : option string.
Variable join : list string → string.

(** POST /submit-sales: refused with nothing touched, refused by the ledger
    with the upload deleted, or stored. *)
Lemma submit_route_cases t1 t2 rq w :
  let out := route "cashier" (submit_sales env join t1 t2) rq w in
  (json_success (json out.1) = false ∧ out.2 = w)
  ∨ (∃ a f s d content,
       wallet rq = Some a ∧ file rq = Some f
       ∧ b_storeId (body rq) = Some s ∧ b_date (body rq) = Some d
       ∧ sales_files w !! path f = Some content
       ∧ is_Some (BlockchainService.mockSalesRecords (chain w)
                    !! BlockchainService.key s d)
       ∧ out.1 = {| status := 400;
                    json := Result (BlockchainService.reply false
                              "Sales record already exists for this date") |}
       ∧ out.2 = {| chain := chain w;
                    sales_files := delete (path f) (sales_files w);
                    metadata := metadata w;
                    audit_logs := audit_logs w;
                    admin_logs := admin_logs w |})
  ∨ (∃ a f s d content,
       wallet rq = Some a ∧ file rq = Some f
       ∧ BlockchainService.mockUsers (chain w) !! a = Some "cashier"
       ∧ b_storeId (body rq) = Some s ∧ b_date (body rq) = Some d
       ∧ s ≠ "" ∧ d ≠ ""
       ∧ sales_files w !! path f = Some content
       ∧ BlockchainService.mockSalesRecords (chain w) !! BlockchainService.key s d = None
       ∧ out.1 = {| status := 200;
                    json := SubmitOk s d (Sha256.sha256_hex content)
                              (filename f) (fsize f) |}
       ∧ out.2
         = {| chain :=
                {| BlockchainService.mockUsers := BlockchainService.mockUsers (chain w);
                   BlockchainService.mockSalesRecords :=
                     <[BlockchainService.key s d :=
                         {| BlockchainService.storeId := s;
                            BlockchainService.date := d;
                            BlockchainService.hash := Sha256.sha256_hex content;
                            BlockchainService.timestamp := t1;
                            BlockchainService.submittedBy := a |}]>
                       (BlockchainService.mockSalesRecords (chain w)) |};
              sales_files := sales_files w;
              metadata :=
                <[metadataPath env join s d :=
                    {| md_storeId := s; md_date := d;
                       md_hash := Sha256.sha256_hex content;
                       md_filename := filename f; md_originalName := originalname f;
                       md_size := fsize f; md_submittedBy := a;
                       md_timestamp := t2 |}]> (metadata w);
              audit_logs := audit_logs w;
              admin_logs := admin_logs w |}).
Proof.
  intros out. subst out. unfold route.
  destruct (gate "cashier" (chain w) rq) as [denied|r2] eqn:Hgate.
  { left. split; [|done]. by apply gate_denied_failure in Hgate as [? _]. }
  apply gate_next in Hgate as (a & Hw & Hbad & Hrole & _ & ->).
  unfold submit_sales. simpl.
  destruct (file rq) as [f|] eqn:Hf; [|left; done].
  destruct (b_storeId (body rq)) as [s|] eqn:Hs; [|left; done].
  destruct (b_date (body rq)) as [d|] eqn:Hd; [|left; done].
  unfold empty_str.
  destruct (decide (s = "")) as [->|Hs']; [left; done|].
  destruct (decide (d = "")) as [->|Hd'].
  { left. by rewrite orb_true_r. }
  rewrite !bool_decide_eq_false_2 by done. simpl.
  destruct (sales_files w !! path f) as [content|] eqn:Hfile; [|left; done].
  destruct (submit_cases t1 s d (Sha256.sha256_hex content) a (chain w))
    as [[Hno _]|[(_ & Hdup & ->)|(_ & Hfree & ->)]]; [done| |]; simpl.
  - right. left. exists a, f, s, d, content. done.
  - right. right. exists a, f, s, d, content. done.
Qed.

(** POST /verify: refused with nothing touched, or one audit log written
    about the record the ledger has under the key. *)
Lemma verify_route_cases t1 t2 rq w :
  let out := route "auditor" (verify env join t1 t2) rq w in
  (json_success (json out.1) = false ∧ out.2 = w)
  ∨ (∃ a f s d rec,
       wallet rq = Some a ∧ file rq = Some f
       ∧ BlockchainService.mockUsers (chain w) !! a = Some "auditor"
       ∧ b_storeId (body rq) = Some s ∧ b_date (body rq) = Some d
       ∧ s ≠ "" ∧ d ≠ ""
       ∧ BlockchainService.mockSalesRecords (chain w) !! BlockchainService.key s d
         = Some rec
       ∧ status out.1 = 200%N
       ∧ out.2
         = {| chain := chain w; sales_files := sales_files w; metadata := metadata w;
              audit_logs :=
                <[auditLogPath env join s d t2 :=
                    {| auditedBy := a; al_storeId := s; al_date := d;
                       uploadedHash := Sha256.sha256_hex (buffer f);
                       storedHash := BlockchainService.hash rec;
                       hashMatch :=
                         bool_decide (Sha256.sha256_hex (buffer f)
                                      = BlockchainService.hash rec);
                       al_filename := originalname f; fileSize := fsize f;
                       al_timestamp := t1; originalSubmission := rec |}]>
                  (audit_logs w);
              admin_logs := admin_logs w |}).
Proof.
  intros out. subst out. unfold route.
  destruct (gate "auditor" (chain w) rq) as [denied|r2] eqn:Hgate.
  { left. split; [|done]. by apply gate_denied_failure in Hgate as [? _]. }
  apply gate_next in Hgate as (a & Hw & Hbad & Hrole & _ & ->).
  destruct (file rq) as [f|] eqn:Hf; [|left; unfold verify; simpl; by rewrite Hf].
  destruct (b_storeId (body rq)) as [s|] eqn:Hs;
    [|left; unfold verify; simpl; by rewrite Hf, Hs].
  destruct (b_date (body rq)) as [d|] eqn:Hd;
    [|left; unfold verify; simpl; by rewrite Hf, Hs, Hd].
  destruct (decide (s = "")) as [->|Hs'].
  { left. unfold verify. simpl. by rewrite Hf, Hs, Hd. }
  destruct (decide (d = "")) as [->|Hd'].
  { left. unfold verify, empty_str. simpl. rewrite Hf, Hs, Hd.
    by rewrite (bool_decide_eq_true_2 ("" = "")), orb_true_r. }
  destruct (BlockchainService.mockSalesRecords (chain w) !! BlockchainService.key s d)
    as [rec|] eqn:Hk.
  - right. exists a, f, s, d, rec.
    rewrite (verify_found env join t1 t2 _ w f s d rec) by done. done.
  - left. rewrite (verify_missing env join t1 t2 _ w f s d) by done. done.
Qed.

Lemma world_eq w1 w2 :
  chain w1 = chain w2 → sales_files w1 = sales_files w2 → metadata w1 = metadata w2 →
  audit_logs w1 = audit_logs w2 → admin_logs w1 = admin_logs w2 → w1 = w2.
Proof. destruct w1, w2. simpl. by intros -> -> -> -> ->. Qed.

Lemma admin_handlers_keep_files t1 t2 r w :
  (sales_files (add_user env join t1 t2 r w).2 = sales_files w
   ∧ metadata (add_user env join t1 t2 r w).2 = metadata w
   ∧ audit_logs (add_user env join t1 t2 r w).2 = audit_logs w)
  ∧ (sales_files (remove_user env join t1 t2 r w).2 = sales_files w
     ∧ metadata (remove_user env join t1 t2 r w).2 = metadata w
     ∧ audit_logs (remove_user env join t1 t2 r w).2 = audit_logs w).
Proof.
  unfold add_user, remove_user.
  split; repeat (case_match; simpl; try done).
Qed.

(** POST /add-user and DELETE /remove-user: refused with nothing touched, or
    the identity store changed and one admin log written. *)
Lemma add_user_route_cases t1 t2 rq w :
  let out := route "admin" (add_user env join t1 t2) rq w in
  (json_success (json out.1) = false ∧ out.2 = w)
  ∨ (∃ a target role,
       wallet rq = Some a
       ∧ BlockchainService.mockUsers (chain w) !! a = Some "admin"
       ∧ valid_role role = true ∧ bad_address target = false
       ∧ json_success (json out.1) = true
       ∧ out.2
         = {| chain :=
                {| BlockchainService.mockUsers :=
                     <[target := role]> (BlockchainService.mockUsers (chain w));
                   BlockchainService.mockSalesRecords :=
                     BlockchainService.mockSalesRecords (chain w) |};
              sales_files := sales_files w; metadata := metadata w;
              audit_logs := audit_logs w;
              admin_logs :=
                <[adminLogPath env join t2 :=
                    {| action := "add_user"; adminAddress := a;
                       targetAddress := target; log_role := Some role;
                       log_timestamp := t1 |}]> (admin_logs w) |}).
Proof.
  intros out. subst out.
  destruct (admin_route_cases (add_user env join t1 t2) rq w)
    as [?|(a & Hw & Hadmin & ->)]; [by left|].
  destruct (add_user_outcome env join t1 t2
              {| req := rq; userAddress := a; userRole := "admin" |} w Hadmin)
    as [?|(target & role & _ & _ & Hvalid & Hbad & Hresp & Hchain & Hlogs)]; [by left|].
  right. exists a, target, role. rewrite Hresp. repeat split; try done.
  apply world_eq; simpl; try done; apply admin_handlers_keep_files.
Qed.

Lemma remove_user_route_cases t1 t2 rq w :
  let out := route "admin" (remove_user env join t1 t2) rq w in
  (json_success (json out.1) = false ∧ out.2 = w)
  ∨ (∃ a target,
       wallet rq = Some a
       ∧ BlockchainService.mockUsers (chain w) !! a = Some "admin"
       ∧ is_Some (BlockchainService.mockUsers (chain w) !! target)
       ∧ json_success (json out.1) = true
       ∧ out.2
         = {| chain :=
                {| BlockchainService.mockUsers :=
                     delete target (BlockchainService.mockUsers (chain w));
                   BlockchainService.mockSalesRecords :=
                     BlockchainService.mockSalesRecords (chain w) |};
              sales_files := sales_files w; metadata := metadata w;
              audit_logs := audit_logs w;
              admin_logs :=
                <[adminLogPath env join t2 :=
                    {| action := "remove_user"; adminAddress := a;
                       targetAddress := target; log_role := None;
                       log_timestamp := t1 |}]> (admin_logs w) |}).
Proof.
  intros out. subst out.
  destruct (admin_route_cases (remove_user env join t1 t2) rq w)
    as [?|(a & Hw & Hadmin & ->)]; [by left|].
  destruct (remove_user_outcome env join t1 t2
              {| req := rq; userAddress := a; userRole := "admin" |} w Hadmin)
    as [?|(target & _ & Hknown & Hresp & Hchain & Hlogs)]; [by left|].
  right. exists a, target. rewrite Hresp. repeat split; try done.
  apply world_eq; simpl; try done; apply admin_handlers_keep_files.
Qed.

End Effects.

(** ** What every history keeps *)

Section Soundness.
Import Backend.
Variable env : option string.
Variable join : list string → string.

Lemma sound_started : sound started.
Proof.
  split; simpl; try (intros ? ?; by rewrite lookup_empty).
  intros a r Hr. unfold BlockchainService.initial in Hr. simpl in Hr.
  repeat (apply lookup_insert_Some in Hr as [[<- <-]|[_ Hr]]; [by vm_compute|]).
  by rewrite lookup_empty in Hr.
Qed.

Lemma sound_same_books w w' : chain w' = chain w → sound w → sound w'.
Proof. intros Hc [H1 H2]. split; rewrite ?Hc; done. Qed.

Lemma serve_sound e w : sound w → sound (serve env join e w).
Proof.
  intros Hw. destruct e as [p content|t1 t2 rq|t1 t2 rq|t1 t2 rq|t1 t2 rq]; simpl.
  - by apply (sound_same_books w).
  - destruct (submit_route_cases env join t1 t2 rq w)
      as [[_ ->]|[(a & f & s & d & content & _ & _ & _ & _ & _ & _ & _ & ->)
         |(a & f & s & d & content & _ & _ & _ & _ & _ & Hs & Hd & _ & Hfree & _ & ->)]];
      [done|by apply (sound_same_books w)|].
    destruct Hw as [H1 H2]. split; simpl; [done|].
    intros k rec [[<- <-]|[Hne Hk]]%lookup_insert_Some; [|by apply (H2 k)].
    simpl. repeat split; try done.
  - destruct (verify_route_cases env join t1 t2 rq w)
      as [[_ ->]|(a & f & s & d & rec & _ & _ & _ & _ & _ & _ & _ & Hrec & _ & ->)];
      [done|].
    by apply (sound_same_books w).
  - destruct (add_user_route_cases env join t1 t2 rq w)
      as [[_ ->]|(a & target & role & _ & _ & Hvalid & Hbad & _ & ->)]; [done|].
    destruct Hw as [H1 H2]. split; simpl; [|done].
    intros x r [[<- <-]|[Hne Hx]]%lookup_insert_Some; [done|by apply (H1 x)].
  - destruct (remove_user_route_cases env join t1 t2 rq w)
      as [[_ ->]|(a & target & _ & _ & _ & _ & ->)]; [done|].
    destruct Hw as [H1 H2]. split; simpl; [|done].
    intros x r [_ Hx]%lookup_delete_Some. by apply (H1 x).
Qed.

Lemma history_sound es : ∀ w, sound w → sound (history env join es w).
Proof.
  induction es as [|e es IH]; intros w Hw; [done|].
  simpl. by apply IH, serve_sound.
Qed.

End Soundness.

(** X11.  Through the HTTP routes the identity store only ever holds
    well-formed addresses with one of the three roles.  So the three checks of
    [authMiddleware] miss nobody: a request whose header names an address is
    let through exactly when that address has an entry in the store, and then
    carries the role of that entry. *)
Theorem identity_store_stays_wellformed :
  ∀ env join es,
    let w := history env join es started in
    (∀ a r, BlockchainService.mockUsers (Backend.chain w) !! a = Some r →
            Backend.bad_address a = false ∧ valid_role r = true)
    ∧ (∀ rq a, Backend.wallet rq = Some a →
               ((∃ r1, Backend.authMiddleware (Backend.chain w) rq = inr r1)
                ↔ is_Some (BlockchainService.mockUsers (Backend.chain w) !! a))
               ∧ (∀ r1, Backend.authMiddleware (Backend.chain w) rq = inr r1 →
                        BlockchainService.mockUsers (Backend.chain w) !! a
                        = Some (Backend.userRole r1))).
Proof.
  intros env join es w.
  pose proof (history_sound env join es started sound_started) as [H1 _].
  fold w in H1. split; [done|]. intros rq a Hw. split; [split|].
  - intros [r1 Hauth]. apply authMiddleware_next in Hauth as (a' & Hw' & _ & Hr & _).
    rewrite Hw in Hw'. injection Hw' as <-. by eexists.
  - intros [r Hr]. destruct (H1 a r Hr) as [Hbad Hvalid].
    exists {| Backend.req := rq; Backend.userAddress := a; Backend.userRole := r |}.
    apply authMiddleware_next. exists a. done.
  - intros r1 Hauth. apply authMiddleware_next in Hauth as (a' & Hw' & _ & Hr & _).
    rewrite Hw in Hw'. by injection Hw' as <-.
Qed.

(** X12.  Every record the ledger holds after any history of requests is
    filed under the key of its own store id and date, both not empty, and
    carries a digest of 64 characters. *)
Theorem ledger_records_wellformed :
  ∀ env join es k rec,
    BlockchainService.mockSalesRecords (Backend.chain (history env join es started)) !! k
    = Some rec →
    k = BlockchainService.key (BlockchainService.storeId rec) (BlockchainService.date rec)
    ∧ BlockchainService.storeId rec ≠ "" ∧ BlockchainService.date rec ≠ ""
    ∧ String.length (BlockchainService.hash rec) = 64%nat.
Proof.
  intros env join es.
  by pose proof (history_sound env join es started sound_started) as [_ H2].
Qed.

(** X15.  A submission for a key that already has a record is answered 400
    with the service's message; the handler deletes the file that was just
    uploaded and leaves the ledger, the metadata and the logs as they were. *)
Theorem refused_submission_is_cleaned_up :
  ∀ env join t1 t2 rq w a f s d content rec,
    Backend.wallet rq = Some a → Backend.bad_address a = false →
    BlockchainService.mockUsers (Backend.chain w) !! a = Some "cashier" →
    Backend.file rq = Some f →
    Backend.b_storeId (Backend.body rq) = Some s →
    Backend.b_date (Backend.body rq) = Some d →
    s ≠ "" → d ≠ "" →
    Backend.sales_files w !! Backend.path f = Some content →
    BlockchainService.mockSalesRecords (Backend.chain w) !! BlockchainService.key s d
    = Some rec →
    Backend.route "cashier" (Backend.submit_sales env join t1 t2) rq w
    = ({| Backend.status := 400;
          Backend.json :=
            Backend.Result (BlockchainService.reply false
                              "Sales record already exists for this date") |},
       {| Backend.chain := Backend.chain w;
          Backend.sales_files := delete (Backend.path f) (Backend.sales_files w);
          Backend.metadata := Backend.metadata w;
          Backend.audit_logs := Backend.audit_logs w;
          Backend.admin_logs := Backend.admin_logs w |}).
Proof.
  intros env join t1 t2 rq w a f s d content rec
    Hw Hbad Hrole Hf Hs Hd Hs' Hd' Hfile Hk.
  rewrite (route_granted _ _ _ _ a) by done.
  unfold Backend.submit_sales, BlockchainService.submitSalesHash, empty_str. simpl.
  rewrite Hf, Hs, Hd, Hfile, Hrole, Hk, !bool_decide_eq_false_2 by done. simpl.
  reflexivity.
Qed.

Lemma refused_submission_is_cleaned_up_witness :
  Backend.sales_files
    (Backend.route "cashier" (Backend.submit_sales None plain_join 30 31)
       (sales_request BlockchainService.mock_cashier "S1" "2024-01-01") recorded).2
  = ∅.
Proof.
  rewrite (refused_submission_is_cleaned_up None plain_join 30 31
             (sales_request BlockchainService.mock_cashier "S1" "2024-01-01") recorded
             BlockchainService.mock_cashier upload "S1" "2024-01-01"
             (Backend.buffer upload) first_record);
    vm_compute; first [reflexivity | discriminate].
Defined.

Lemma ledger_records_wellformed_witness :
  String.length (BlockchainService.hash first_record) = 64%nat.
Proof.
  refine (proj2 (proj2 (proj2
            (ledger_records_wellformed None plain_join sample_events
               (BlockchainService.key "S1" "2024-01-01") first_record _))));
    vm_compute; reflexivity.
Defined.

(** ** The reading routes *)

Section Reading.
Import Views.

#[local] Instance newer_trans {A} (stamp : A → N) : Transitive (newer stamp).
Proof. unfold newer. intros x y z Hxy Hyz. lia. Qed.

#[local] Instance newer_total {A} (stamp : A → N) : Total (newer stamp).
Proof. unfold newer. intros x y. lia. Qed.

Lemma newest_first_spec {A} (stamp : A → N) (l : list A) :
  newest_first stamp l ≡ₚ l
  ∧ StronglySorted (newer stamp) (newest_first stamp l).
Proof.
  unfold newest_first. split.
  - apply merge_sort_Permutation.
  - apply StronglySorted_merge_sort; apply _.
Qed.

End Reading.

(** ** Statistics *)

Section Stats.
Import Backend Views.

Lemma app_last_inj r : ∀ t a b,
  r +:+ String a "" = t +:+ String b "" → r = t ∧ a = b.
Proof.
  induction r as [|x r IH]; intros [|y t] a b Heq; cbn in Heq.
  - by injection Heq as ->.
  - injection Heq as -> Heq. by destruct t.
  - injection Heq as -> Heq. by destruct r.
  - injection Heq as -> Heq. by destruct (IH t a b Heq) as [-> ->].
Qed.

Lemma field_of_role r name :
  str_eq (r +:+ "s") (name +:+ "s") = bool_decide (r = name).
Proof.
  unfold str_eq. apply bool_decide_ext. split.
  - by intros [? _]%app_last_inj.
  - by intros ->.
Qed.

Lemma field_never_total r : str_eq (r +:+ "s") "total" = false.
Proof.
  unfold str_eq. apply bool_decide_eq_false_2.
  change "total" with ("tota" +:+ String "l" "").
  by intros [_ ?]%app_last_inj.
Qed.

Lemma count_user_spec acc r :
  count_user acc r
  = {| total := total acc;
       admins := admins acc + (if bool_decide (r = "admin") then 1 else 0);
       auditors := auditors acc + (if bool_decide (r = "auditor") then 1 else 0);
       cashiers := cashiers acc + (if bool_decide (r = "cashier") then 1 else 0) |}.
Proof.
  unfold count_user.
  change "admins" with ("admin" +:+ "s").
  change "auditors" with ("auditor" +:+ "s").
  change "cashiers" with ("cashier" +:+ "s").
  rewrite (field_of_role r "admin"), (field_of_role r "auditor"),
    (field_of_role r "cashier"), field_never_total.
  destruct acc as [t a u c]. simpl.
  repeat case_bool_decide; simplify_eq; f_equal; lia.
Qed.

Lemma foldl_count_user l : ∀ acc,
  let us := foldl count_user acc l in
  total us = total acc
  ∧ admins us = (admins acc + length (filter (λ r, r = "admin") l))%nat
  ∧ auditors us = (auditors acc + length (filter (λ r, r = "auditor") l))%nat
  ∧ cashiers us = (cashiers acc + length (filter (λ r, r = "cashier") l))%nat.
Proof.
  induction l as [|r l IH]; intros acc; simpl; [repeat split; lia|].
  destruct (IH (count_user acc r)) as (Ht & Ha & Hu & Hc).
  rewrite Ht, Ha, Hu, Hc, count_user_spec, !filter_cons. simpl.
  repeat split; case_bool_decide; case_decide; try done; simpl; lia.
Qed.

Lemma valid_roles_partition l :
  Forall (λ r, valid_role r = true) l →
  (length (filter (λ r, r = "admin") l) + length (filter (λ r, r = "auditor") l)
   + length (filter (λ r, r = "cashier") l) = length l)%nat.
Proof.
  induction 1 as [|r l Hr _ IH]; [done|].
  rewrite !filter_cons. simpl.
  apply valid_role_spec in Hr as [Hr|[Hr|Hr]]; subst r;
    repeat case_decide; try done; simpl; lia.
Qed.

Lemma stats_users r w :
  (stats r w).1
  = foldl count_user
      {| total := size (BlockchainService.mockUsers (chain w));
         admins := 0; auditors := 0; cashiers := 0 |}
      (map_to_list (BlockchainService.mockUsers (chain w))).*2.
Proof. reflexivity. Qed.

End Stats.

(** X19.  GET /admin/stats counts the users by role: [total] is the number of
    entries of the identity store, each of the three counters is the number
    of entries with that role, and no counter exceeds the total.  After any
    history of requests the three counters add up to the total, and the
    number of sales records reported to the admin is the number of records in
    the ledger. *)
Theorem stats_count_users :
  (∀ r w,
     let us := (Views.stats r w).1 in
     let roles := (map_to_list (BlockchainService.mockUsers (Backend.chain w))).*2 in
     Views.total us = size (BlockchainService.mockUsers (Backend.chain w))
     ∧ Views.admins us = length (filter (λ x, x = "admin") roles)
     ∧ Views.auditors us = length (filter (λ x, x = "auditor") roles)
     ∧ Views.cashiers us = length (filter (λ x, x = "cashier") roles)
     ∧ (Views.admins us ≤ Views.total us)%nat
     ∧ (Views.auditors us ≤ Views.total us)%nat
     ∧ (Views.cashiers us ≤ Views.total us)%nat
     ∧ (BlockchainService.mockUsers (Backend.chain w) !! Backend.userAddress r
        = Some "admin" →
        (Views.stats r w).2 = size (BlockchainService.mockSalesRecords (Backend.chain w))))
  ∧ (∀ env join es r,
       let us := (Views.stats r (history env join es started)).1 in
       (Views.admins us + Views.auditors us + Views.cashiers us)%nat = Views.total us).
Proof.
  split.
  - intros r w us roles. subst us. rewrite stats_users. fold roles.
    destruct (foldl_count_user roles
                {| Views.total := size (BlockchainService.mockUsers (Backend.chain w));
                   Views.admins := 0; Views.auditors := 0; Views.cashiers := 0 |})
      as (Ht & Ha & Hu & Hc).
    rewrite Ht, Ha, Hu, Hc. simpl.
    assert (length roles = size (BlockchainService.mockUsers (Backend.chain w)))
      as Hlen by (subst roles; by rewrite length_fmap, length_map_to_list).
    repeat split; try done; try (rewrite <- Hlen; apply length_filter).
    intros Hadmin. unfold BlockchainService.getAllSalesRecords.
    rewrite Hadmin. simpl. by rewrite length_fmap, length_map_to_list.
  - intros env join es r us. subst us. rewrite stats_users.
    set (w := history env join es started).
    set (roles := (map_to_list (BlockchainService.mockUsers (Backend.chain w))).*2).
    destruct (foldl_count_user roles
                {| Views.total := size (BlockchainService.mockUsers (Backend.chain w));
                   Views.admins := 0; Views.auditors := 0; Views.cashiers := 0 |})
      as (Ht & Ha & Hu & Hc).
    rewrite Ht, Ha, Hu, Hc. simpl.
    rewrite valid_roles_partition.
    + subst roles. by rewrite length_fmap, length_map_to_list.
    + pose proof (history_sound env join es started sound_started) as [H1 _].
      apply Forall_forall. intros x Hx. subst roles.
      apply list_elem_of_fmap in Hx as ([a x'] & -> & Hin).
      apply elem_of_map_to_list in Hin. by destruct (H1 a x' Hin).
Qed.

(** ** The name of a stored upload *)

Section UploadName.

Lemma sanitize_chars s :
  Forall name_char (String.list_ascii_of_string (sanitize s)).
Proof.
  induction s as [|c s IH]; simpl; [constructor|].
  constructor; [|done]. unfold name_char.
  destruct (safe_char c) eqn:Hc; [by left|by right].
Qed.

Lemma pretty_N_go_chars x : ∀ s,
  Forall name_char (String.list_ascii_of_string s) →
  Forall name_char (String.list_ascii_of_string (pretty_N_go x s)).
Proof.
  induction (N.lt_wf_0 x) as [x _ IH]. intros s Hs.
  destruct (decide (x = 0%N)) as [->|Hx]; [by rewrite pretty_N_go_0|].
  rewrite pretty_N_go_step by lia. apply IH.
  - apply N.div_lt; lia.
  - simpl. constructor; [|done]. left.
    unfold pretty_N_char. by repeat case_match.
Qed.

Lemma pretty_N_chars (x : N) :
  Forall name_char (String.list_ascii_of_string (pretty x)).
Proof.
  unfold pretty, pretty_N. case_decide.
  - repeat constructor.
  - apply pretty_N_go_chars. constructor.
Qed.

End UploadName.

(** X20.  The name multer gives a stored upload is made of letters, digits,
    dots, hyphens and underscores only, so it has no path separator, whatever
    the name the client sent.  Cleaning keeps the length of the name, leaves
    a clean name as it is and, done twice, changes nothing more. *)
Theorem upload_filename_is_safe :
  ∀ timestamp originalname,
    Forall name_char (String.list_ascii_of_string (upload_filename timestamp originalname))
    ∧ ("/"%char ∉ String.list_ascii_of_string (upload_filename timestamp originalname))
    ∧ ("\"%char ∉ String.list_ascii_of_string (upload_filename timestamp originalname))
    ∧ String.length (sanitize originalname) = String.length originalname
    ∧ sanitize (sanitize originalname) = sanitize originalname
    ∧ (Forall (λ c, safe_char c = true) (String.list_ascii_of_string originalname) →
       sanitize originalname = originalname).
Proof.
  intros t name.
  assert (Forall name_char (String.list_ascii_of_string (upload_filename t name)))
    as Hchars.
  { unfold upload_filename. rewrite !list_ascii_app.
    repeat apply Forall_app_2.
    - apply pretty_N_chars.
    - constructor; [by right|constructor].
    - apply sanitize_chars. }
  assert (∀ c, name_char c → c ≠ "/"%char ∧ c ≠ "\"%char) as Hsep.
  { intros c [Hc| ->]; [|done]. split; intros ->; done. }
  repeat apply conj; try done.
  - intros Hin. rewrite Forall_forall in Hchars.
    apply Hchars in Hin. by destruct (Hsep _ Hin).
  - intros Hin. rewrite Forall_forall in Hchars.
    apply Hchars in Hin. by destruct (Hsep _ Hin).
  - clear. induction name as [|c name IH]; simpl; [done|]. by rewrite IH.
  - clear. induction name as [|c name IH]; simpl; [done|]. rewrite IH.
    destruct (safe_char c) eqn:Hc; [by rewrite Hc|done].
  - clear. induction name as [|c name IH]; simpl; [done|].
    intros [Hc Hrest]%Forall_cons. by rewrite Hc, IH.
Qed.

(** ** The ledger only grows *)

Section Growth.
Import Backend.
Variable env : option string.
Variable join : list string → string.

Lemma verify_route_cases_chain t1 t2 rq w :
  chain (route "auditor" (verify env join t1 t2) rq w).2 = chain w.
Proof.
  unfold route. destruct (gate "auditor" (chain w) rq); [done|].
  apply verify_keeps_chain.
Qed.

Lemma serve_ledger_grows e w :
  BlockchainService.mockSalesRecords (chain w)
  ⊆ BlockchainService.mockSalesRecords (chain (serve env join e w)).
Proof.
  destruct e as [p content|t1 t2 rq|t1 t2 rq|t1 t2 rq|t1 t2 rq]; simpl.
  - done.
  - destruct (submit_route_cases env join t1 t2 rq w)
      as [[_ ->]|[(a & f & s & d & content & _ & _ & _ & _ & _ & _ & _ & ->)
         |(a & f & s & d & content & _ & _ & _ & _ & _ & _ & _ & _ & Hfree & _ & ->)]];
      [done..|].
    simpl. by apply insert_subseteq.
  - by rewrite verify_route_cases_chain.
  - destruct (add_user_route_cases env join t1 t2 rq w)
      as [[_ ->]|(a & target & role & _ & _ & _ & _ & _ & ->)]; done.
  - destruct (remove_user_route_cases env join t1 t2 rq w)
      as [[_ ->]|(a & target & _ & _ & _ & _ & ->)]; done.
Qed.

End Growth.

(** X24.  The ledger only grows: whatever requests arrive, every record the
    ledger holds stays in it unchanged, under the same key. *)
Theorem ledger_only_grows :
  ∀ env join es w,
    BlockchainService.mockSalesRecords (Backend.chain w)
    ⊆ BlockchainService.mockSalesRecords (Backend.chain (history env join es w)).
Proof.
  intros env join es. induction es as [|e es IH]; intros w; [done|].
  simpl. etrans; [apply (serve_ledger_grows env join e)|apply IH].
Qed.

(** ** More theorems at work *)

Example endsWith_examples :
  endsWith ".json" "admin_1700000000000.json" = true
  ∧ endsWith ".json" "json" = false
  ∧ endsWith ".json" "notes.json.bak" = false
  ∧ endsWith ".json" ".json" = true.
Proof. repeat split. Qed.

Lemma last_admin_guard_sound_witness :
  deployer = deployer
  ∧ ModuleTrace.admins
      (ModuleTrace.run [] (SecurePOSModule.init 0 (Some deployer) SecurePOSModule.created))
    = {[deployer]}
  ∧ (SecurePOSModule.removeUser deployer deployer
       (ModuleTrace.run [] (SecurePOSModule.init 0 (Some deployer) SecurePOSModule.created))).2
    = ModuleTrace.run [] (SecurePOSModule.init 0 (Some deployer) SecurePOSModule.created).
Proof.
  refine (last_admin_guard_sound 0%N (Some deployer) [] deployer deployer _).
  vm_compute. reflexivity.
Defined.

Lemma module_without_deployer_stays_empty_witness :
  ModuleTrace.run [ModuleTrace.AddUser 1 second "admin" deployer]
    (SecurePOSModule.init 0 None SecurePOSModule.created)
  = SecurePOSModule.created.
Proof.
  refine (proj1 (module_without_deployer_stays_empty 0%N None
                   [ModuleTrace.AddUser 1 second "admin" deployer]
                   (ModuleTrace.RemoveUser deployer deployer) _)).
  left. reflexivity.
Defined.

Lemma adminAddresses_exact_without_demotion_witness :
  SecurePOSModule.adminAddresses
    (ModuleTrace.run
       [ModuleTrace.AddUser 1 second "admin" deployer;
        ModuleTrace.RemoveUser second deployer]
       (SecurePOSModule.init 0 (Some deployer) SecurePOSModule.created))
  = ModuleTrace.admins
      (ModuleTrace.run
         [ModuleTrace.AddUser 1 second "admin" deployer;
          ModuleTrace.RemoveUser second deployer]
         (SecurePOSModule.init 0 (Some deployer) SecurePOSModule.created)).
Proof.
  refine (adminAddresses_exact_without_demotion 0%N (Some deployer)
            [ModuleTrace.AddUser 1 second "admin" deployer;
             ModuleTrace.RemoveUser second deployer] _).
  simpl. split; [by left|]. split; exact I.
Defined.
